(** * umoci raw runtime-config: reference resolution and config synthesis

    A shallow embedding of [cmd/umoci/raw-runtime-config.go]: the [Before]
    hook of [rawConfigCommand] and the action [rawConfig], written in a small
    monad that threads the world (content-addressable store, filesystem,
    event trace) and the stack of deferred calls of the Go function. *)

From stdpp Require Import base option list strings gmap.
From Stdlib Require Import ZArith Lia.

Local Open Scope string_scope.
Local Open Scope list_scope.

(** ** Errors *)

(** Go [error] values, by the way they are built: an error handed back by a
    collaborator, [errors.Errorf], [fmt.Errorf] and [errors.Wrap]. *)
Inductive error : Type :=
| Opaque (msg : string)
| Errorf (msg : string)
| FmtErrorf (msg : string)
| Wrap (cause : error) (msg : string).

(** The [Error()] method: [errors.Wrap] prefixes its message to the cause. *)
Fixpoint Error (e : error) : string :=
  match e with
  | Opaque m | Errorf m | FmtErrorf m => m
  | Wrap c m => m +:+ ": " +:+ Error c
  end.

Inductive result (A : Type) : Type :=
| Ok (a : A)
| Err (e : error).
Arguments Ok {A} a.
Arguments Err {A} e.

(** ** Image data

    The types of [ispec], [casext] and [umoci] that [rawConfig] handles are
    declared in other packages; they are given here with the fields the
    pipeline reads. *)

(** [ispec.Descriptor]: media type, digest and size of a blob. *)
Record Descriptor : Type := mkDescriptor {
  MediaType : string;
  Digest : string;
  Size : Z
}.

Global Instance Descriptor_eq_dec : EqDecision Descriptor.
Proof. solve_decision. Defined.

Definition zeroDescriptor : Descriptor :=
  {| MediaType := ""; Digest := ""; Size := 0 |}.

(** [ispec.MediaTypeImageManifest] and its siblings. *)
Definition MediaTypeImageManifest : string :=
  "application/vnd.oci.image.manifest.v1+json".
Definition MediaTypeImageIndex : string :=
  "application/vnd.oci.image.index.v1+json".
Definition MediaTypeImageConfig : string :=
  "application/vnd.oci.image.config.v1+json".

(** Modelled from the spec: [casext.DescriptorPath] is not among the
    sources.  An ordered chain from a root index down to a leaf content
    descriptor. *)
Record DescriptorPath : Type := mkDescriptorPath {
  Walk : list Descriptor
}.

(** Modelled from the spec: the [Descriptor()] method of a path, the
    terminal element of the chain. *)
Definition PathDescriptor (p : DescriptorPath) : Descriptor :=
  default zeroDescriptor (last (Walk p)).

(** [ispec.Manifest]: the config descriptor and the ordered layers. *)
Record Manifest : Type := mkManifest {
  Config : Descriptor;
  Layers : list Descriptor
}.

(** The part of [ispec.Image] the pipeline looks at: the declared user. *)
Record Image : Type := mkImage {
  UserUID : Z;
  UserGID : Z
}.

(** [casext.Blob.Data] is an [interface{}]: the value with its dynamic
    type. *)
Inductive BlobData : Type :=
| DataManifest (m : Manifest)
| DataIndex (manifests : list Descriptor)
| DataImage (cfg : Image)
| DataReader (raw : list Byte.byte).

(** [casext.Blob]: the descriptor the blob was fetched under and its
    decoded content. *)
Record Blob : Type := mkBlob {
  BlobDescriptor : Descriptor;
  Data : BlobData
}.

(** ** Mapping options and the metadata envelope *)

(** One remapping directive: host range, container range, length. *)
Record IDMapping : Type := mkIDMapping {
  HostID : Z;
  ContainerID : Z;
  MapSize : Z
}.

(** [layer.MapOptions]. *)
Record MapOptions : Type := mkMapOptions {
  UIDMappings : list IDMapping;
  GIDMappings : list IDMapping;
  Rootless : bool
}.

Definition zeroMapOptions : MapOptions :=
  {| UIDMappings := []; GIDMappings := []; Rootless := false |}.

(** [umoci.Meta]: the versioned envelope of the resolved path and the
    mapping options. *)
Record Meta : Type := mkMeta {
  Version : string;
  From : DescriptorPath;
  MetaMapOptions : MapOptions
}.

(** [var meta umoci.Meta]: the zero value. *)
Definition zeroMeta : Meta :=
  {| Version := ""; From := {| Walk := [] |}; MetaMapOptions := zeroMapOptions |}.

(** ** The command-line context *)

(** Values of [ctx.App.Metadata], a [map[string]interface{}]. *)
Inductive Value : Type :=
| VString (s : string)
| VBool (b : bool)
| VInt (z : Z).

(** [cli.Context]: positional arguments, the metadata map of the
    application and the string flags that are set. *)
Record CliContext : Type := mkContext {
  Args : list string;
  Metadata : gmap string Value;
  Flags : gmap string string
}.

Definition NArg (ctx : CliContext) : nat := length (Args ctx).

(** [ctx.Args().First()]: the first argument, or the empty string. *)
Definition First (args : list string) : string :=
  match args with
  | a :: _ => a
  | [] => ""
  end.

(** [ctx.String(name)]: the flag's value, or the empty string when unset. *)
Definition ctx_String (ctx : CliContext) (name : string) : string :=
  default "" (Flags ctx !! name).

Definition set_Metadata (ctx : CliContext) (k : string) (v : Value) : CliContext :=
  {| Args := Args ctx; Metadata := <[k := v]> (Metadata ctx); Flags := Flags ctx |}.

(** ** The Before hook of rawConfigCommand *)

Definition rawConfigCommand_Before (ctx : CliContext) : CliContext * option error :=
  if negb (NArg ctx =? 1)%nat then
    (ctx, Some (Errorf "invalid number of positional arguments: expected <config.json>"))
  else if String.eqb (First (Args ctx)) "" then
    (ctx, Some (Errorf "config.json path cannot be empty"))
  else
    (set_Metadata ctx "config" (VString (First (Args ctx))), None).

(** ** Collaborators

    Everything [rawConfig] calls into.  The store operations act on the
    store, the file operations on the filesystem, and
    [UnpackRuntimeJSON], which is handed both the engine and the open
    file, on both. *)
Class Collaborators : Type := {
  Store : Type;
  FS : Type;
  Engine : Type;
  File : Type;
  MetaVersion : string;
  ParseIdmapOptions : Meta -> CliContext -> Meta * option error;
  dir_Open : string -> Store -> Store * result Engine;
  ResolveReference : Engine -> string -> Store -> Store * result (list DescriptorPath);
  FromDescriptor : Engine -> Descriptor -> Store -> Store * result Blob;
  Engine_Close : Engine -> Store -> Store * option error;
  Blob_Close : Blob -> Store -> Store * option error;
  os_Create : string -> FS -> FS * result File;
  File_Close : File -> FS -> FS * option error;
  UnpackRuntimeJSON :
    Engine -> File -> string -> Manifest -> MapOptions ->
    Store * FS -> Store * FS * option error
}.

(** ** Worlds, events and the monad of a Go function body *)

(** The calls a run makes, in order. *)
Inductive Event : Type :=
| EvParseIdmapOptions
| EvOpen (imagePath : string)
| EvResolveReference (name : string)
| EvFromDescriptor (d : Descriptor)
| EvCreate (path : string)
| EvLog (msg : string)
| EvUnpackRuntimeJSON (rootfs : string)
| EvEngineClose
| EvBlobClose
| EvFileClose.

Global Instance Event_eq_dec : EqDecision Event.
Proof. solve_decision. Defined.

Section Pipeline.
Context `{C : Collaborators}.

(** What a run can touch: the content-addressable store, the filesystem
    outside it, and the record of the calls made so far. *)
Record World : Type := mkWorld {
  cas : Store;
  fs : FS;
  trace : list Event
}.

(** A deferred call, with its receiver evaluated at the [defer] statement. *)
Inductive Deferred : Type :=
| DeferEngineClose (e : Engine)
| DeferBlobClose (b : Blob)
| DeferFileClose (f : File).

(** The activation of a function: the world and the stack of its deferred
    calls. *)
Record Frame : Type := mkFrame {
  world : World;
  defers : list Deferred
}.

(** How a function leaves: with its [error] result, or by a panic. *)
Inductive Outcome : Type :=
| Returned (err : option error)
| Panicked (msg : string).

(** A statement either goes on with a value or leaves the function. *)
Inductive Step (A : Type) : Type :=
| Continue (a : A)
| Leave (o : Outcome).
Arguments Continue {A} a.
Arguments Leave {A} o.

Definition Go (A : Type) : Type := Frame -> Frame * Step A.

Definition ret {A} (a : A) : Go A := fun fr => (fr, Continue a).

Definition bind {A B} (m : Go A) (k : A -> Go B) : Go B :=
  fun fr =>
    match m fr with
    | (fr', Continue a) => k a fr'
    | (fr', Leave o) => (fr', Leave o)
    end.

Definition return_ {A} (err : option error) : Go A :=
  fun fr => (fr, Leave (Returned err)).

Definition panic {A} (msg : string) : Go A :=
  fun fr => (fr, Leave (Panicked msg)).

Definition emit (ev : Event) : Go unit :=
  fun fr =>
    let w := world fr in
    ({| world := {| cas := cas w; fs := fs w; trace := trace w ++ [ev] |};
        defers := defers fr |}, Continue tt).

Definition defer (d : Deferred) : Go unit :=
  fun fr => ({| world := world fr; defers := d :: defers fr |}, Continue tt).

(** A call into the store, into the filesystem, or into both. *)
Definition on_cas {A} (f : Store -> Store * A) : Go A :=
  fun fr =>
    let w := world fr in
    let '(s, a) := f (cas w) in
    ({| world := {| cas := s; fs := fs w; trace := trace w |};
        defers := defers fr |}, Continue a).

Definition on_fs {A} (f : FS -> FS * A) : Go A :=
  fun fr =>
    let w := world fr in
    let '(t, a) := f (fs w) in
    ({| world := {| cas := cas w; fs := t; trace := trace w |};
        defers := defers fr |}, Continue a).

Definition on_both {A} (f : Store * FS -> Store * FS * A) : Go A :=
  fun fr =>
    let w := world fr in
    let '(s, t, a) := f (cas w, fs w) in
    ({| world := {| cas := s; fs := t; trace := trace w |};
        defers := defers fr |}, Continue a).

Notation "'do' x <- m ; k" := (bind m (fun x => k))
  (at level 10, x name, m at level 100, k at level 200, only parsing).
Notation "'exec' m ; k" := (bind m (fun _ => k))
  (at level 10, m at level 100, k at level 200, only parsing).

(** [if err != nil { return errors.Wrap(err, msg) }] *)
Definition check {A} (r : result A) (msg : string) : Go A :=
  match r with
  | Ok a => ret a
  | Err e => return_ (Some (Wrap e msg))
  end.

(** [v.(string)]: the single-valued type assertion panics on anything but a
    string, a missing key included. *)
Definition assert_string (v : option Value) : Go string :=
  match v with
  | Some (VString s) => ret s
  | _ => panic "interface conversion: interface {} is not string"
  end.

(** [data.(ispec.Manifest)] in its comma-ok form. *)
Definition assert_Manifest (d : BlobData) : option Manifest :=
  match d with
  | DataManifest m => Some m
  | _ => None
  end.

(** [paths[0]]. *)
Definition index0 {A} (l : list A) : Go A :=
  match l !! 0%nat with
  | Some a => ret a
  | None => panic "index out of range [0]"
  end.

(** [casext.NewEngine]: the same engine behind the extended interface. *)
Definition NewEngine (e : Engine) : Engine := e.

Definition set_Version (m : Meta) (v : string) : Meta :=
  {| Version := v; From := From m; MetaMapOptions := MetaMapOptions m |}.

Definition set_From (m : Meta) (p : DescriptorPath) : Meta :=
  {| Version := Version m; From := p; MetaMapOptions := MetaMapOptions m |}.

(** ** rawConfig *)

Definition rawConfig (ctx : CliContext) : Go unit :=
  do imagePath <- assert_string (Metadata ctx !! "--image-path") ;
  do fromName <- assert_string (Metadata ctx !! "--image-tag") ;
  do configPath <- assert_string (Metadata ctx !! "config") ;
  let meta := zeroMeta in
  let meta := set_Version meta MetaVersion in
  (* Parse and set up the mapping options. *)
  exec emit EvParseIdmapOptions ;
  let '(meta, err) := ParseIdmapOptions meta ctx in
  match err with
  | Some e => return_ (Some e)
  | None =>
  (* Get a reference to the CAS. *)
  exec emit (EvOpen imagePath) ;
  do r <- on_cas (dir_Open imagePath) ;
  do engine <- check r "open CAS" ;
  let engineExt := NewEngine engine in
  exec defer (DeferEngineClose engine) ;
  exec emit (EvResolveReference fromName) ;
  do r <- on_cas (ResolveReference engineExt fromName) ;
  do fromDescriptorPaths <- check r "get descriptor" ;
  if (length fromDescriptorPaths =? 0)%nat then
    return_ (Some (Errorf ("tag not found: " +:+ fromName)))
  else
  if negb (length fromDescriptorPaths =? 1)%nat then
    return_ (Some (Errorf ("tag is ambiguous: " +:+ fromName)))
  else
  do p <- index0 fromDescriptorPaths ;
  let meta := set_From meta p in
  exec emit (EvFromDescriptor (PathDescriptor (From meta))) ;
  do r <- on_cas (FromDescriptor engineExt (PathDescriptor (From meta))) ;
  do manifestBlob <- check r "get manifest" ;
  exec defer (DeferBlobClose manifestBlob) ;
  if negb (String.eqb (MediaType (BlobDescriptor manifestBlob)) MediaTypeImageManifest) then
    return_ (Some (Wrap
      (FmtErrorf ("descriptor does not point to ispec.MediaTypeImageManifest: not implemented: "
                  +:+ MediaType (BlobDescriptor manifestBlob)))
      "invalid --image tag"))
  else
  (* Get the manifest. *)
  match assert_Manifest (Data manifestBlob) with
  | None =>
    (* Should _never_ be reached. *)
    return_ (Some (Errorf ("[internal error] unknown manifest blob type: "
                           +:+ MediaType (BlobDescriptor manifestBlob))))
  | Some manifest =>
  (* Generate the configuration. *)
  exec emit (EvCreate configPath) ;
  do r <- on_fs (os_Create configPath) ;
  do configFile <- check r "opening config path" ;
  exec defer (DeferFileClose configFile) ;
  (* Write out the generated config. *)
  exec emit (EvLog "generating config.json") ;
  exec emit (EvUnpackRuntimeJSON (ctx_String ctx "rootfs")) ;
  do err <- on_both (UnpackRuntimeJSON engineExt configFile (ctx_String ctx "rootfs")
                    manifest (MetaMapOptions meta)) ;
  match err with
  | Some e => return_ (Some (Wrap e "generate config"))
  | None => return_ None
  end
  end
  end.

(** ** Calling a function: the body, then its deferred calls *)

(** A deferred call runs when the function leaves; what it returns is
    dropped. *)
Definition run_one (d : Deferred) (w : World) : World :=
  match d with
  | DeferEngineClose e =>
    {| cas := fst (Engine_Close e (cas w)); fs := fs w;
       trace := trace w ++ [EvEngineClose] |}
  | DeferBlobClose b =>
    {| cas := fst (Blob_Close b (cas w)); fs := fs w;
       trace := trace w ++ [EvBlobClose] |}
  | DeferFileClose f =>
    {| cas := cas w; fs := fst (File_Close f (fs w));
       trace := trace w ++ [EvFileClose] |}
  end.

(** The stack of deferred calls, last in, first out; its head is the call
    deferred last. *)
Fixpoint run_deferred (ds : list Deferred) (w : World) : World :=
  match ds with
  | [] => w
  | d :: ds' => run_deferred ds' (run_one d w)
  end.

Definition call (body : Go unit) (w : World) : World * Outcome :=
  let '(fr, st) := body {| world := w; defers := [] |} in
  (run_deferred (defers fr) (world fr),
   match st with
   | Continue _ => Returned None
   | Leave o => o
   end).

(** ** The command *)

Record Command : Type := mkCommand {
  Name : string;
  Aliases : list string;
  Usage : string;
  Category : string;
  CommandFlags : list string;
  Action : CliContext -> World -> World * Outcome;
  Before : CliContext -> CliContext * option error
}.

(** [cli.Command.Run], as far as the two hooks go: [Before] runs first and
    the action only when it returned nil, on the context it left. *)
Definition Command_Run (cmd : Command) (ctx : CliContext) (w : World) : World * Outcome :=
  match Before cmd ctx with
  | (_, Some e) => (w, Returned (Some e))
  | (ctx', None) => Action cmd ctx' w
  end.

Section Cli.
Variable uxRemap : Command -> Command.

(** The [cli.Command] literal handed to [uxRemap]. *)
Definition rawConfigCommand_literal : Command :=
  {| Name := "runtime-config";
     Aliases := ["config"];
     Usage := "generates an OCI runtime configuration for an image";
     Category := "image";
     CommandFlags := ["rootfs"];
     Action := fun ctx => call (rawConfig ctx);
     Before := rawConfigCommand_Before |}.

Definition rawConfigCommand : Command := uxRemap rawConfigCommand_literal.

End Cli.

(** The invocations that reach the action: exactly one positional
    argument, and that one not empty. *)
Definition WellFormedInvocation (ctx : CliContext) : Prop :=
  exists path, Args ctx = [path] /\ path <> "".

(** Where an error that a run returns comes from: a collaborator that
    failed, with the wrapper its error got, or one of the rejections
    [rawConfig] raises itself. *)
Inductive Surfaced (ctx : CliContext) (e : error) : Prop :=
| FromParse (meta : Meta) :
    ParseIdmapOptions (set_Version zeroMeta MetaVersion) ctx = (meta, Some e) ->
    Surfaced ctx e
| FromOpen (path : string) (s s' : Store) (c : error) :
    dir_Open path s = (s', Err c) -> e = Wrap c "open CAS" -> Surfaced ctx e
| FromResolve (engine : Engine) (name : string) (s s' : Store) (c : error) :
    ResolveReference engine name s = (s', Err c) ->
    e = Wrap c "get descriptor" -> Surfaced ctx e
| FromFetch (engine : Engine) (d : Descriptor) (s s' : Store) (c : error) :
    FromDescriptor engine d s = (s', Err c) ->
    e = Wrap c "get manifest" -> Surfaced ctx e
| FromCreate (path : string) (t t' : FS) (c : error) :
    os_Create path t = (t', Err c) ->
    e = Wrap c "opening config path" -> Surfaced ctx e
| FromUnpack (engine : Engine) (file : File) (rootfs : string) (m : Manifest)
    (o : MapOptions) (s s' : Store * FS) (c : error) :
    UnpackRuntimeJSON engine file rootfs m o s = (s', Some c) ->
    e = Wrap c "generate config" -> Surfaced ctx e
| FromMediaType (engine : Engine) (d : Descriptor) (s s' : Store) (blob : Blob) :
    FromDescriptor engine d s = (s', Ok blob) ->
    MediaType (BlobDescriptor blob) <> MediaTypeImageManifest ->
    e = Wrap (FmtErrorf
                ("descriptor does not point to ispec.MediaTypeImageManifest: not implemented: "
                 +:+ MediaType (BlobDescriptor blob))) "invalid --image tag" ->
    Surfaced ctx e
| FromNotFound (engine : Engine) (name : string) (s s' : Store) :
    ResolveReference engine name s = (s', Ok []) ->
    e = Errorf ("tag not found: " +:+ name) -> Surfaced ctx e
| FromAmbiguous (engine : Engine) (name : string) (s s' : Store)
    (paths : list DescriptorPath) :
    ResolveReference engine name s = (s', Ok paths) ->
    (1 < length paths)%nat ->
    e = Errorf ("tag is ambiguous: " +:+ name) -> Surfaced ctx e
| FromInternal (engine : Engine) (d : Descriptor) (s s' : Store) (blob : Blob) :
    FromDescriptor engine d s = (s', Ok blob) ->
    MediaType (BlobDescriptor blob) = MediaTypeImageManifest ->
    assert_Manifest (Data blob) = None ->
    e = Errorf ("[internal error] unknown manifest blob type: "
                +:+ MediaType (BlobDescriptor blob)) ->
    Surfaced ctx e.

(** ** The ways out of rawConfig *)

(** The three entries of the metadata that [rawConfig] asserts to be
    strings. *)
Definition Keys (ctx : CliContext) (imagePath fromName configPath : string) : Prop :=
  Metadata ctx !! "--image-path" = Some (VString imagePath)
  /\ Metadata ctx !! "--image-tag" = Some (VString fromName)
  /\ Metadata ctx !! "config" = Some (VString configPath).

(** The world a run leaves: a store, a filesystem, and the run's events
    after those that were there. *)
Definition after (w : World) (s : Store) (t : FS) (evs : list Event) : World :=
  {| cas := s; fs := t; trace := trace w ++ evs |}.

Definition is_close (ev : Event) : bool :=
  match ev with
  | EvEngineClose | EvBlobClose | EvFileClose => true
  | _ => false
  end.

(** The calls of a complete run, in the order of the source. *)
Definition protocol (imagePath fromName : string) (d : Descriptor)
    (configPath rootfs : string) : list Event :=
  [EvParseIdmapOptions; EvOpen imagePath; EvResolveReference fromName;
   EvFromDescriptor d; EvCreate configPath; EvLog "generating config.json";
   EvUnpackRuntimeJSON rootfs].

Section Exits.
Variables (ctx : CliContext) (w : World).
Variables (imagePath fromName configPath : string).

(** How far a run got: each stage holds what the earlier calls returned. *)
Definition Parsed (meta : Meta) : Prop :=
  ParseIdmapOptions (set_Version zeroMeta MetaVersion) ctx = (meta, None).

Definition Opened (meta : Meta) (s1 : Store) (engine : Engine) : Prop :=
  Parsed meta /\ dir_Open imagePath (cas w) = (s1, Ok engine).

Definition Resolved (meta : Meta) (s1 : Store) (engine : Engine) (s2 : Store)
    (p : DescriptorPath) : Prop :=
  Opened meta s1 engine
  /\ ResolveReference (NewEngine engine) fromName s1 = (s2, Ok [p]).

Definition Fetched (meta : Meta) (s1 : Store) (engine : Engine) (s2 : Store)
    (p : DescriptorPath) (s3 : Store) (blob : Blob) : Prop :=
  Resolved meta s1 engine s2 p
  /\ FromDescriptor (NewEngine engine) (PathDescriptor p) s2 = (s3, Ok blob).

Definition Typed (meta : Meta) (s1 : Store) (engine : Engine) (s2 : Store)
    (p : DescriptorPath) (s3 : Store) (blob : Blob) (manifest : Manifest) : Prop :=
  Fetched meta s1 engine s2 p s3 blob
  /\ MediaType (BlobDescriptor blob) = MediaTypeImageManifest
  /\ assert_Manifest (Data blob) = Some manifest.

(** The return statements of [rawConfig], one constructor each, with the
    world and the result the function leaves there. *)
Inductive Exit : World -> Outcome -> Prop :=
| AtParse (meta : Meta) (e : error) :
    ParseIdmapOptions (set_Version zeroMeta MetaVersion) ctx = (meta, Some e) ->
    Exit (after w (cas w) (fs w) [EvParseIdmapOptions]) (Returned (Some e))
| AtOpen (meta : Meta) (s1 : Store) (e : error) :
    Parsed meta ->
    dir_Open imagePath (cas w) = (s1, Err e) ->
    Exit (after w s1 (fs w) [EvParseIdmapOptions; EvOpen imagePath])
         (Returned (Some (Wrap e "open CAS")))
| AtResolve (meta : Meta) (s1 : Store) (engine : Engine) (s2 : Store) (e : error) :
    Opened meta s1 engine ->
    ResolveReference (NewEngine engine) fromName s1 = (s2, Err e) ->
    Exit (after w (fst (Engine_Close engine s2)) (fs w)
            [EvParseIdmapOptions; EvOpen imagePath; EvResolveReference fromName;
             EvEngineClose])
         (Returned (Some (Wrap e "get descriptor")))
| AtNotFound (meta : Meta) (s1 : Store) (engine : Engine) (s2 : Store) :
    Opened meta s1 engine ->
    ResolveReference (NewEngine engine) fromName s1 = (s2, Ok []) ->
    Exit (after w (fst (Engine_Close engine s2)) (fs w)
            [EvParseIdmapOptions; EvOpen imagePath; EvResolveReference fromName;
             EvEngineClose])
         (Returned (Some (Errorf ("tag not found: " +:+ fromName))))
| AtAmbiguous (meta : Meta) (s1 : Store) (engine : Engine) (s2 : Store)
    (paths : list DescriptorPath) :
    Opened meta s1 engine ->
    ResolveReference (NewEngine engine) fromName s1 = (s2, Ok paths) ->
    (1 < length paths)%nat ->
    Exit (after w (fst (Engine_Close engine s2)) (fs w)
            [EvParseIdmapOptions; EvOpen imagePath; EvResolveReference fromName;
             EvEngineClose])
         (Returned (Some (Errorf ("tag is ambiguous: " +:+ fromName))))
| AtFetch (meta : Meta) (s1 : Store) (engine : Engine) (s2 : Store)
    (p : DescriptorPath) (s3 : Store) (e : error) :
    Resolved meta s1 engine s2 p ->
    FromDescriptor (NewEngine engine) (PathDescriptor p) s2 = (s3, Err e) ->
    Exit (after w (fst (Engine_Close engine s3)) (fs w)
            [EvParseIdmapOptions; EvOpen imagePath; EvResolveReference fromName;
             EvFromDescriptor (PathDescriptor p); EvEngineClose])
         (Returned (Some (Wrap e "get manifest")))
| AtMediaType (meta : Meta) (s1 : Store) (engine : Engine) (s2 : Store)
    (p : DescriptorPath) (s3 : Store) (blob : Blob) :
    Fetched meta s1 engine s2 p s3 blob ->
    MediaType (BlobDescriptor blob) <> MediaTypeImageManifest ->
    Exit (after w (fst (Engine_Close engine (fst (Blob_Close blob s3)))) (fs w)
            [EvParseIdmapOptions; EvOpen imagePath; EvResolveReference fromName;
             EvFromDescriptor (PathDescriptor p); EvBlobClose; EvEngineClose])
         (Returned (Some (Wrap
            (FmtErrorf
               ("descriptor does not point to ispec.MediaTypeImageManifest: not implemented: "
                +:+ MediaType (BlobDescriptor blob)))
            "invalid --image tag")))
| AtInternal (meta : Meta) (s1 : Store) (engine : Engine) (s2 : Store)
    (p : DescriptorPath) (s3 : Store) (blob : Blob) :
    Fetched meta s1 engine s2 p s3 blob ->
    MediaType (BlobDescriptor blob) = MediaTypeImageManifest ->
    assert_Manifest (Data blob) = None ->
    Exit (after w (fst (Engine_Close engine (fst (Blob_Close blob s3)))) (fs w)
            [EvParseIdmapOptions; EvOpen imagePath; EvResolveReference fromName;
             EvFromDescriptor (PathDescriptor p); EvBlobClose; EvEngineClose])
         (Returned (Some (Errorf
            ("[internal error] unknown manifest blob type: "
             +:+ MediaType (BlobDescriptor blob)))))
| AtCreate (meta : Meta) (s1 : Store) (engine : Engine) (s2 : Store)
    (p : DescriptorPath) (s3 : Store) (blob : Blob) (manifest : Manifest)
    (t1 : FS) (e : error) :
    Typed meta s1 engine s2 p s3 blob manifest ->
    os_Create configPath (fs w) = (t1, Err e) ->
    Exit (after w (fst (Engine_Close engine (fst (Blob_Close blob s3)))) t1
            [EvParseIdmapOptions; EvOpen imagePath; EvResolveReference fromName;
             EvFromDescriptor (PathDescriptor p); EvCreate configPath;
             EvBlobClose; EvEngineClose])
         (Returned (Some (Wrap e "opening config path")))
| AtUnpack (meta : Meta) (s1 : Store) (engine : Engine) (s2 : Store)
    (p : DescriptorPath) (s3 : Store) (blob : Blob) (manifest : Manifest)
    (t1 : FS) (file : File) (s4 : Store) (t2 : FS) (err : option error) :
    Typed meta s1 engine s2 p s3 blob manifest ->
    os_Create configPath (fs w) = (t1, Ok file) ->
    UnpackRuntimeJSON (NewEngine engine) file (ctx_String ctx "rootfs") manifest
      (MetaMapOptions meta) (s3, t1) = (s4, t2, err) ->
    Exit (after w (fst (Engine_Close engine (fst (Blob_Close blob s4))))
            (fst (File_Close file t2))
            [EvParseIdmapOptions; EvOpen imagePath; EvResolveReference fromName;
             EvFromDescriptor (PathDescriptor p); EvCreate configPath;
             EvLog "generating config.json";
             EvUnpackRuntimeJSON (ctx_String ctx "rootfs");
             EvFileClose; EvBlobClose; EvEngineClose])
         (Returned match err with
                   | Some e => Some (Wrap e "generate config")
                   | None => None
                   end).

End Exits.

End Pipeline.

(** ** The collaborators, as the specification describes them

    [umoci.ParseIdmapOptions], [dir.Open], the [casext] engine and
    [layer.UnpackRuntimeJSON] live in other packages of the repository.
    This module gives them the behaviour the specification states at
    their boundary, over a concrete store and filesystem. *)
Module Spec.

(** The error taxonomy of the specification. *)
Definition NotFound (what : string) : error := Opaque ("NotFound: " +:+ what).
Definition Corrupt : error := Opaque "Corrupt".
Definition InvalidMapping : error := Opaque "InvalidMapping".
Definition LayerWalkError : error := Opaque "LayerWalkError".
Definition SecondaryFsUnavailable : error := Opaque "SecondaryFsUnavailable".
Definition MappingApplicationError : error := Opaque "MappingApplicationError".
Definition SinkError : error := Opaque "SinkError".

(** One image layout: the tagged descriptor paths of its index and its
    blobs by digest. *)
Record ImageLayout : Type := mkImageLayout {
  index : list (string * DescriptorPath);
  blobs : gmap string (list Byte.byte)
}.

(** What an already unpacked tree says about the properties the manifest
    cannot settle alone. *)
Record Tree : Type := mkTree {
  tree_uid : option Z;
  tree_gid : option Z
}.

(** The filesystem outside the store: file contents by path, the unpacked
    trees by path, the paths at which no file can be created, and the free
    space in bytes. *)
Record Filesystem : Type := mkFilesystem {
  contents : gmap string (list Byte.byte);
  trees : gmap string Tree;
  unwritable : gset string;
  space : nat
}.

(** The runtime configuration document. *)
Record Document : Type := mkDocument {
  overlay : list Descriptor;
  process_uid : Z;
  process_gid : Z;
  doc_uid_mappings : list IDMapping;
  doc_gid_mappings : list IDMapping
}.

(** What the specification leaves to formats defined elsewhere: the JSON
    decoders of the blobs, the serialization of the document, what makes a
    layer descriptor well formed, and the mapping directives the command
    line carries. *)
Class Codec : Type := {
  decodeManifest : list Byte.byte -> option Manifest;
  decodeIndex : list Byte.byte -> option (list Descriptor);
  decodeImage : list Byte.byte -> option Image;
  serialize : Document -> list Byte.byte;
  wellFormedLayer : Descriptor -> bool;
  directives : CliContext -> list IDMapping * list IDMapping
}.

Section Model.
Context `{K : Codec}.

(** *** ID-mapping option parser (specification, 4.2) *)

(** Modelled from the spec: a range is well formed when it is not negative
    and not empty, and two ranges conflict when they overlap on the
    container side. *)
Definition wellFormedMapping (m : IDMapping) : bool :=
  (0 <=? HostID m)%Z && (0 <=? ContainerID m)%Z && (0 <? MapSize m)%Z.

Definition overlaps (a b : IDMapping) : bool :=
  (ContainerID a <? ContainerID b + MapSize b)%Z
  && (ContainerID b <? ContainerID a + MapSize a)%Z.

Fixpoint conflictFree (ms : list IDMapping) : bool :=
  match ms with
  | [] => true
  | m :: ms' => forallb (fun m' => negb (overlaps m m')) ms' && conflictFree ms'
  end.

Definition validMappings (ms : list IDMapping) : bool :=
  forallb wellFormedMapping ms && conflictFree ms.

(** Modelled from the spec: [umoci.ParseIdmapOptions] is not among the
    sources.  Ranges must be well formed and must not overlap on the
    container side; no directive at all gives the identity mapping. *)
Definition ParseIdmapOptions (meta : Meta) (ctx : CliContext) : Meta * option error :=
  let '(uids, gids) := directives ctx in
  if validMappings uids && validMappings gids then
    ({| Version := Version meta; From := From meta;
        MetaMapOptions := {| UIDMappings := uids; GIDMappings := gids;
                             Rootless := Rootless (MetaMapOptions meta) |} |}, None)
  else (meta, Some InvalidMapping).

(** *** Store accessor (specification, 2 and 6) *)

(** Modelled from the spec: [dir.Open] is not among the sources.  The
    handle names the image layout it was opened on. *)
Definition Open (path : string) (st : gmap string ImageLayout)
  : gmap string ImageLayout * result string :=
  match st !! path with
  | Some _ => (st, Ok path)
  | None => (st, Err (NotFound path))
  end.

(** Modelled from the spec: [casext.Engine.ResolveReference] is not among
    the sources.  All descriptor paths the index holds under the name. *)
Definition ResolveReference (engine : string) (name : string)
    (st : gmap string ImageLayout)
  : gmap string ImageLayout * result (list DescriptorPath) :=
  match st !! engine with
  | Some img =>
    (st, Ok (snd <$> filter (fun e => bool_decide (fst e = name)) (index img)))
  | None => (st, Err (NotFound engine))
  end.

(** Modelled from the spec: the decoding inside [FromDescriptor], by the
    declared media type; a blob that does not parse is [Corrupt]. *)
Definition decode (d : Descriptor) (raw : list Byte.byte) : result BlobData :=
  if String.eqb (MediaType d) MediaTypeImageManifest then
    match decodeManifest raw with
    | Some m => Ok (DataManifest m)
    | None => Err Corrupt
    end
  else if String.eqb (MediaType d) MediaTypeImageIndex then
    match decodeIndex raw with
    | Some ds => Ok (DataIndex ds)
    | None => Err Corrupt
    end
  else if String.eqb (MediaType d) MediaTypeImageConfig then
    match decodeImage raw with
    | Some cfg => Ok (DataImage cfg)
    | None => Err Corrupt
    end
  else Ok (DataReader raw).

(** Modelled from the spec: [casext.Engine.FromDescriptor] is not among the
    sources.  The blob of the descriptor's digest, decoded, under the
    descriptor it was asked with. *)
Definition FromDescriptor (engine : string) (d : Descriptor)
    (st : gmap string ImageLayout)
  : gmap string ImageLayout * result Blob :=
  match st !! engine with
  | None => (st, Err (NotFound engine))
  | Some img =>
    match blobs img !! Digest d with
    | None => (st, Err (NotFound (Digest d)))
    | Some raw =>
      match decode d raw with
      | Ok data => (st, Ok {| BlobDescriptor := d; Data := data |})
      | Err e => (st, Err e)
      end
    end
  end.

(** Modelled from the spec: closing the handle or a blob leaves the store
    as it is. *)
Definition Engine_Close (engine : string) (st : gmap string ImageLayout)
  : gmap string ImageLayout * option error := (st, None).

Definition Blob_Close (b : Blob) (st : gmap string ImageLayout)
  : gmap string ImageLayout * option error := (st, None).

(** *** The destination file *)

Definition set_contents (t : Filesystem) (c : gmap string (list Byte.byte))
    (free : nat) : Filesystem :=
  {| contents := c; trees := trees t; unwritable := unwritable t; space := free |}.

(** [os.Create] on the modelled filesystem: the file is created, or
    truncated when it exists. *)
Definition Create (path : string) (t : Filesystem) : Filesystem * result string :=
  if decide (path ∈ unwritable t) then
    (t, Err (Opaque ("open " +:+ path +:+ ": permission denied")))
  else (set_contents t (<[path := []]> (contents t)) (space t), Ok path).

Definition File_Close (f : string) (t : Filesystem) : Filesystem * option error :=
  (t, None).

(** Modelled from the spec: writing to the sink, all the bytes, or as many
    as there is room for and a [SinkError]. *)
Definition write (bytes : list Byte.byte) (f : string) (t : Filesystem)
  : Filesystem * option error :=
  let old := default [] (contents t !! f) in
  if decide (length bytes <= space t)%nat then
    (set_contents t (<[f := (old ++ bytes)%list]> (contents t)) (space t - length bytes), None)
  else
    (set_contents t (<[f := (old ++ take (space t) bytes)%list]> (contents t)) 0, Some SinkError).

(** *** Runtime config synthesizer (specification, 4.3) *)

(** Modelled from the spec: the walk over the layer descriptors, in their
    order; a malformed one is a [LayerWalkError]. *)
Definition layerWalk (layers : list Descriptor) : result (list Descriptor) :=
  if forallb wellFormedLayer layers then Ok layers else Err LayerWalkError.

(** Modelled from the spec: the secondary filesystem, when a path is
    supplied; a path that is no readable tree is
    [SecondaryFsUnavailable]. *)
Definition secondaryFs (t : Filesystem) (path : option string) : result (option Tree) :=
  match path with
  | None => Ok None
  | Some p =>
    match trees t !! p with
    | Some tr => Ok (Some tr)
    | None => Err SecondaryFsUnavailable
    end
  end.

(** Modelled from the spec: where both sources speak, the secondary
    filesystem wins. *)
Definition prefer (secondary : option Z) (declared : Z) : Z :=
  default declared secondary.

(** Modelled from the spec: host space to container space; with no mapping
    configured the identity, and outside every configured range a
    [MappingApplicationError]. *)
Definition translate (maps : list IDMapping) (id : Z) : result Z :=
  match maps with
  | [] => Ok id
  | _ =>
    match find (fun m => (HostID m <=? id)%Z && (id <? HostID m + MapSize m)%Z) maps with
    | Some m => Ok (ContainerID m + (id - HostID m))%Z
    | None => Err MappingApplicationError
    end
  end.

(** Modelled from the spec: the synthesis half of
    [layer.UnpackRuntimeJSON], which is not among the sources.  The
    document is built from the layer sequence, the config blob, the
    secondary filesystem when one is given, and the mapping options; the
    store is only read. *)
Definition synthesize (engine : string) (manifest : Manifest) (opts : MapOptions)
    (secondaryFsPath : option string)
    (st : gmap string ImageLayout) (t : Filesystem)
  : gmap string ImageLayout * result Document :=
  match layerWalk (Layers manifest) with
  | Err e => (st, Err e)
  | Ok order =>
    let '(st1, r) := FromDescriptor engine (Config manifest) st in
    match r with
    | Err e => (st1, Err e)
    | Ok blob =>
      match Data blob with
      | DataImage cfg =>
        match secondaryFs t secondaryFsPath with
        | Err e => (st1, Err e)
        | Ok sec =>
          let uid := prefer (sec ≫= tree_uid) (UserUID cfg) in
          let gid := prefer (sec ≫= tree_gid) (UserGID cfg) in
          match translate (UIDMappings opts) uid with
          | Err e => (st1, Err e)
          | Ok u =>
            match translate (GIDMappings opts) gid with
            | Err e => (st1, Err e)
            | Ok g =>
              (st1, Ok {| overlay := order; process_uid := u; process_gid := g;
                          doc_uid_mappings := UIDMappings opts;
                          doc_gid_mappings := GIDMappings opts |})
            end
          end
        end
      | _ => (st1, Err Corrupt)
      end
    end
  end.

(** Modelled from the spec: [layer.UnpackRuntimeJSON] is not among the
    sources.  Synthesis first; only a finished document is serialized and
    written to the sink.  An empty [rootfs] is no secondary filesystem. *)
Definition UnpackRuntimeJSON (engine : string) (configFile : string)
    (rootfs : string) (manifest : Manifest) (opts : MapOptions)
    (s : gmap string ImageLayout * Filesystem)
  : gmap string ImageLayout * Filesystem * option error :=
  let secondaryFsPath := if String.eqb rootfs "" then None else Some rootfs in
  let '(st1, r) := synthesize engine manifest opts secondaryFsPath (fst s) (snd s) in
  match r with
  | Err e => (st1, snd s, Some e)
  | Ok doc =>
    let '(t1, err) := write (serialize doc) configFile (snd s) in
    (st1, t1, err)
  end.

#[export] Instance collaborators : Collaborators :=
  Build_Collaborators
    (gmap string ImageLayout) Filesystem string string
    "2" ParseIdmapOptions Open ResolveReference FromDescriptor
    Engine_Close Blob_Close Create File_Close UnpackRuntimeJSON.

End Model.

End Spec.

(** ** A concrete image, filesystem and codec to run the pipeline on *)
Module Fixture.
Import Spec.

Definition manifestDesc : Descriptor :=
  {| MediaType := MediaTypeImageManifest; Digest := "sha256:manifest"; Size := 1 |}.
Definition otherManifestDesc : Descriptor :=
  {| MediaType := MediaTypeImageManifest; Digest := "sha256:other"; Size := 1 |}.
Definition indexDesc : Descriptor :=
  {| MediaType := MediaTypeImageIndex; Digest := "sha256:index"; Size := 1 |}.
Definition configDesc : Descriptor :=
  {| MediaType := MediaTypeImageConfig; Digest := "sha256:config"; Size := 2 |}.
Definition layerDesc (n : Z) : Descriptor :=
  {| MediaType := "application/vnd.oci.image.layer.v1.tar+gzip";
     Digest := "sha256:layer"; Size := n |}.

Definition byteOfZ (z : Z) : Byte.byte :=
  default Byte.x00 (Byte.of_N (Z.to_N z)).

(** The text of a mapping flag, [container:host:size] in decimal. *)
Definition digitOf (a : Ascii.ascii) : option Z :=
  let n := Z.of_N (Ascii.N_of_ascii a) in
  if (48 <=? n)%Z && (n <=? 57)%Z then Some (n - 48)%Z else None.

Fixpoint numberFrom (acc : Z) (s : string) : option Z :=
  match s with
  | EmptyString => Some acc
  | String a s' =>
    match digitOf a with
    | Some d => numberFrom (10 * acc + d)%Z s'
    | None => None
    end
  end.

Definition parseNumber (s : string) : option Z :=
  match s with
  | EmptyString => None
  | _ => numberFrom 0 s
  end.

(** The separator, [:]. *)
Definition colon : Ascii.ascii := Ascii.ascii_of_nat 58.

Fixpoint splitColon (cur : string) (s : string) : list string :=
  match s with
  | EmptyString => [cur]
  | String a s' =>
    if Ascii.eqb a colon then cur :: splitColon "" s'
    else splitColon (cur +:+ String a "") s'
  end.

(** A text that is no triple of numbers gives a range no validation lets
    through. *)
Definition malformedMapping : IDMapping :=
  {| HostID := -1; ContainerID := -1; MapSize := 0 |}.

Definition parseMapping (text : string) : IDMapping :=
  match splitColon "" text with
  | [c; h; n] =>
    match parseNumber c, parseNumber h, parseNumber n with
    | Some c', Some h', Some n' =>
      {| HostID := h'; ContainerID := c'; MapSize := n' |}
    | _, _, _ => malformedMapping
    end
  | _ => malformedMapping
  end.

#[export] Instance codec : Codec := {|
  decodeManifest raw :=
    match raw with
    | [] => None
    | _ => Some {| Config := configDesc; Layers := [layerDesc 10; layerDesc 20] |}
    end;
  decodeIndex raw := Some [manifestDesc];
  decodeImage raw :=
    match raw with
    | [u; g] => Some {| UserUID := Z.of_N (Byte.to_N u); UserGID := Z.of_N (Byte.to_N g) |}
    | _ => None
    end;
  serialize doc := [byteOfZ (process_uid doc); byteOfZ (process_gid doc)];
  wellFormedLayer d := (0 <=? Size d)%Z;
  directives ctx :=
    (option_list (parseMapping <$> Flags ctx !! "uid-map"),
     option_list (parseMapping <$> Flags ctx !! "gid-map"))
|}.

Definition image : ImageLayout :=
  {| index :=
       [("latest", {| Walk := [indexDesc; manifestDesc] |});
        ("v1", {| Walk := [indexDesc; manifestDesc] |});
        ("v1", {| Walk := [indexDesc; otherManifestDesc] |});
        ("list", {| Walk := [indexDesc] |})];
     blobs :=
       {[ "sha256:manifest" := [Byte.x01];
          "sha256:config" := [Byte.x03; Byte.x04];
          "sha256:index" := [Byte.x02] ]} |}.

Definition store : gmap string ImageLayout := {[ "/image" := image ]}.

Definition filesystem : Filesystem :=
  {| contents := {[ "/bundle/config.json" := [Byte.x07; Byte.x07; Byte.x07] ]};
     trees := {[ "/bundle/rootfs" := {| tree_uid := Some 5%Z; tree_gid := None |} ]};
     unwritable := {[ "/proc/config.json" ]};
     space := 4096 |}.

Definition world : World := {| cas := store; fs := filesystem; trace := [] |}.

(** The context as [main] and the earlier hooks leave it: image path and
    tag in the metadata, the positional arguments and the flags as given. *)
Definition invocation (tag : string) (args : list string)
    (flags : gmap string string) : CliContext :=
  {| Args := args;
     Metadata := {[ "--image-path" := VString "/image"; "--image-tag" := VString tag ]};
     Flags := flags |}.

(** The same after [Before] accepted it. *)
Definition accepted (tag : string) (config : string)
    (flags : gmap string string) : CliContext :=
  fst (rawConfigCommand_Before (invocation tag [config] flags)).

End Fixture.

(** * Properties of the pipeline *)

(** Unfolding a function body down to the calls it makes. *)
Ltac go_unfold :=
  unfold call, rawConfig, bind, ret, return_, panic, emit, defer,
    on_cas, on_fs, on_both, check, assert_string, index0; cbn.

Section PipelineFacts.
Context `{C : Collaborators}.

Lemma Before_decides (ctx : CliContext) :
  WellFormedInvocation ctx <-> snd (rawConfigCommand_Before ctx) = None.
Proof.
  unfold WellFormedInvocation, rawConfigCommand_Before, NArg.
  destruct (Args ctx) as [|a [|b l]] eqn:HA; cbn.
  - split; [intros (p & Hp & _); discriminate | discriminate].
  - destruct (String.eqb_spec a ""); cbn.
    + split; [intros (p & Hp & Hn); congruence | discriminate].
    + split; [reflexivity | intros _; exists a; split; congruence].
  - split; [intros (p & Hp & _); discriminate | discriminate].
Qed.

(** C9: [Before] rejects the invocation unless there is exactly one
    positional argument and it is not the empty string.  A rejected
    invocation never reaches the action: the command returns the error
    with the world as it was, so that no mapping is parsed, no store is
    opened and no file is created.  An accepted one has the argument
    stored under the key [config] of the metadata, and nothing else
    changed. *)
Theorem Before_guards_the_action (ctx : CliContext) (w : World) :
  (WellFormedInvocation ctx <-> snd (rawConfigCommand_Before ctx) = None)
  /\ (forall e, snd (rawConfigCommand_Before ctx) = Some e ->
        fst (rawConfigCommand_Before ctx) = ctx
        /\ Command_Run rawConfigCommand_literal ctx w = (w, Returned (Some e)))
  /\ (snd (rawConfigCommand_Before ctx) = None ->
        fst (rawConfigCommand_Before ctx)
          = set_Metadata ctx "config" (VString (First (Args ctx)))
        /\ Metadata (fst (rawConfigCommand_Before ctx)) !! "config"
             = Some (VString (First (Args ctx)))
        /\ exists path, Args ctx = [path] /\ path <> ""
             /\ Metadata (fst (rawConfigCommand_Before ctx)) !! "config"
                  = Some (VString path)).
Proof.
  split; [apply Before_decides|].
  split.
  - intros e He. unfold Command_Run; cbn [Before rawConfigCommand_literal].
    unfold rawConfigCommand_Before in *.
    destruct (negb (NArg ctx =? 1)%nat); cbn in *.
    + injection He as <-. auto.
    + destruct (String.eqb (First (Args ctx)) ""); cbn in *.
      * injection He as <-. auto.
      * discriminate.
  - intros HN. pose proof (proj2 (Before_decides ctx) HN) as (path & HA & Hne).
    unfold rawConfigCommand_Before in *. unfold NArg in *. rewrite HA in *. cbn in *.
    destruct (String.eqb_spec path ""); [contradiction|]. cbn.
    repeat split; try apply lookup_insert_eq.
    exists path. repeat split; auto. apply lookup_insert_eq.
Qed.

(** C1: when the store query returns more than one descriptor path the
    run fails with the error [tag is ambiguous: <name>].  The calls it
    made are the mapping parse, the open, the query and the deferred
    close of the engine: no path is dereferenced, no file is created, and
    the filesystem is left as it was. *)
Theorem ambiguous_reference_is_rejected
    (ctx : CliContext) (w : World) (imagePath fromName configPath : string)
    (meta : Meta) (engine : Engine) (s1 s2 : Store) (paths : list DescriptorPath) :
  Metadata ctx !! "--image-path" = Some (VString imagePath) ->
  Metadata ctx !! "--image-tag" = Some (VString fromName) ->
  Metadata ctx !! "config" = Some (VString configPath) ->
  ParseIdmapOptions (set_Version zeroMeta MetaVersion) ctx = (meta, None) ->
  dir_Open imagePath (cas w) = (s1, Ok engine) ->
  ResolveReference (NewEngine engine) fromName s1 = (s2, Ok paths) ->
  (1 < length paths)%nat ->
  snd (call (rawConfig ctx) w)
    = Returned (Some (Errorf ("tag is ambiguous: " +:+ fromName)))
  /\ trace (fst (call (rawConfig ctx) w))
       = trace w ++ [EvParseIdmapOptions; EvOpen imagePath;
                     EvResolveReference fromName; EvEngineClose]
  /\ fs (fst (call (rawConfig ctx) w)) = fs w.
Proof.
  intros H1 H2 H3 HP HO HR Hlen.
  go_unfold. rewrite H1, H2, H3; cbn. rewrite HP; cbn. rewrite HO; cbn.
  unfold NewEngine in *. rewrite HR; cbn.
  destruct paths as [|p [|q l]]; cbn in Hlen; try lia. cbn.
  rewrite <- !app_assoc. cbn.
  repeat split; auto.
Qed.

(** C2: when the store query returns no descriptor path the run fails with
    the error [tag not found: <name>].  Its calls are the mapping parse,
    the open, the query and the deferred close: [FromDescriptor] is never
    called. *)
Theorem missing_reference_is_rejected
    (ctx : CliContext) (w : World) (imagePath fromName configPath : string)
    (meta : Meta) (engine : Engine) (s1 s2 : Store) :
  Metadata ctx !! "--image-path" = Some (VString imagePath) ->
  Metadata ctx !! "--image-tag" = Some (VString fromName) ->
  Metadata ctx !! "config" = Some (VString configPath) ->
  ParseIdmapOptions (set_Version zeroMeta MetaVersion) ctx = (meta, None) ->
  dir_Open imagePath (cas w) = (s1, Ok engine) ->
  ResolveReference (NewEngine engine) fromName s1 = (s2, Ok []) ->
  snd (call (rawConfig ctx) w)
    = Returned (Some (Errorf ("tag not found: " +:+ fromName)))
  /\ Error (Errorf ("tag not found: " +:+ fromName)) = "tag not found: " +:+ fromName
  /\ trace (fst (call (rawConfig ctx) w))
       = trace w ++ [EvParseIdmapOptions; EvOpen imagePath;
                     EvResolveReference fromName; EvEngineClose]
  /\ (forall d, EvFromDescriptor d ∉
         [EvParseIdmapOptions; EvOpen imagePath;
          EvResolveReference fromName; EvEngineClose]).
Proof.
  intros H1 H2 H3 HP HO HR.
  go_unfold. rewrite H1, H2, H3; cbn. rewrite HP; cbn. rewrite HO; cbn.
  unfold NewEngine in *. rewrite HR; cbn.
  rewrite <- !app_assoc. cbn.
  repeat split; auto.
  intros d Hin. repeat (apply elem_of_cons in Hin as [Hin|Hin]; [discriminate|]).
  by apply elem_of_nil in Hin.
Qed.

(** C3: when the one resolved path leads to a blob whose declared media
    type is not [ispec.MediaTypeImageManifest], the run fails with an
    error wrapped as [invalid --image tag] whose message ends in the media
    type that was met; no file is created. *)
Theorem unsupported_media_type_is_rejected
    (ctx : CliContext) (w : World) (imagePath fromName configPath : string)
    (meta : Meta) (engine : Engine) (s1 s2 s3 : Store)
    (p : DescriptorPath) (blob : Blob) :
  Metadata ctx !! "--image-path" = Some (VString imagePath) ->
  Metadata ctx !! "--image-tag" = Some (VString fromName) ->
  Metadata ctx !! "config" = Some (VString configPath) ->
  ParseIdmapOptions (set_Version zeroMeta MetaVersion) ctx = (meta, None) ->
  dir_Open imagePath (cas w) = (s1, Ok engine) ->
  ResolveReference (NewEngine engine) fromName s1 = (s2, Ok [p]) ->
  FromDescriptor (NewEngine engine) (PathDescriptor p) s2 = (s3, Ok blob) ->
  MediaType (BlobDescriptor blob) <> MediaTypeImageManifest ->
  exists e,
    snd (call (rawConfig ctx) w) = Returned (Some e)
    /\ e = Wrap (FmtErrorf
               ("descriptor does not point to ispec.MediaTypeImageManifest: not implemented: "
                +:+ MediaType (BlobDescriptor blob)))
             "invalid --image tag"
    /\ Error e
        = "invalid --image tag: descriptor does not point to ispec.MediaTypeImageManifest: not implemented: "
          +:+ MediaType (BlobDescriptor blob)
    /\ trace (fst (call (rawConfig ctx) w))
         = trace w ++ [EvParseIdmapOptions; EvOpen imagePath;
                       EvResolveReference fromName;
                       EvFromDescriptor (PathDescriptor p);
                       EvBlobClose; EvEngineClose]
    /\ fs (fst (call (rawConfig ctx) w)) = fs w.
Proof.
  intros H1 H2 H3 HP HO HR HF Hmt.
  eexists. split.
  - go_unfold. rewrite H1, H2, H3; cbn. rewrite HP; cbn. rewrite HO; cbn.
    unfold NewEngine in *. rewrite HR; cbn. rewrite HF; cbn.
    destruct (String.eqb_spec (MediaType (BlobDescriptor blob)) MediaTypeImageManifest);
      [contradiction|]. cbn. reflexivity.
  - split; [reflexivity|]. split; [reflexivity|].
    go_unfold. rewrite H1, H2, H3; cbn. rewrite HP; cbn. rewrite HO; cbn.
    unfold NewEngine in *. rewrite HR; cbn. rewrite HF; cbn.
    destruct (String.eqb_spec (MediaType (BlobDescriptor blob)) MediaTypeImageManifest);
      [contradiction|]. cbn.
    rewrite <- !app_assoc. cbn. auto.
Qed.

(** Closing goals about a run whose events are all known. *)
Ltac trace_eq := rewrite <- ?app_assoc; cbn; reflexivity.


(** C7: once [dir.Open] has handed out the engine, every way out of
    [rawConfig] closes it: whatever the later calls return, the run's last
    event is the close of the engine, it happens exactly once, and the
    store the run leaves behind is the one that close returned. *)
Theorem store_handle_is_released
    (ctx : CliContext) (w : World) (imagePath fromName configPath : string)
    (meta : Meta) (engine : Engine) (s1 : Store) :
  Metadata ctx !! "--image-path" = Some (VString imagePath) ->
  Metadata ctx !! "--image-tag" = Some (VString fromName) ->
  Metadata ctx !! "config" = Some (VString configPath) ->
  ParseIdmapOptions (set_Version zeroMeta MetaVersion) ctx = (meta, None) ->
  dir_Open imagePath (cas w) = (s1, Ok engine) ->
  exists (evs : list Event) (s : Store),
    trace (fst (call (rawConfig ctx) w)) = trace w ++ evs
    /\ last evs = Some EvEngineClose
    /\ count_occ Event_eq_dec evs EvEngineClose = 1%nat
    /\ cas (fst (call (rawConfig ctx) w)) = fst (Engine_Close engine s).
Proof.
  intros H1 H2 H3 HP HO.
  go_unfold. rewrite H1, H2, H3; cbn. rewrite HP; cbn. rewrite HO; cbn.
  destruct (ResolveReference (NewEngine engine) fromName s1) as [s2 [paths|e]]; cbn;
    [|do 2 eexists; split; [trace_eq|repeat split; reflexivity]].
  destruct paths as [|p [|q l]]; cbn;
    try (do 2 eexists; split; [trace_eq|repeat split; reflexivity]).
  destruct (FromDescriptor (NewEngine engine) (PathDescriptor p) s2) as [s3 [blob|e]]; cbn;
    [|do 2 eexists; split; [trace_eq|repeat split; reflexivity]].
  destruct (negb (String.eqb (MediaType (BlobDescriptor blob)) MediaTypeImageManifest)); cbn;
    [do 2 eexists; split; [trace_eq|repeat split; reflexivity]|].
  destruct (assert_Manifest (Data blob)) as [manifest|]; cbn;
    [|do 2 eexists; split; [trace_eq|repeat split; reflexivity]].
  destruct (os_Create configPath (fs w)) as [t1 [file|e]]; cbn;
    [|do 2 eexists; split; [trace_eq|repeat split; reflexivity]].
  destruct (UnpackRuntimeJSON (NewEngine engine) file (ctx_String ctx "rootfs")
              manifest (MetaMapOptions meta) (s3, t1)) as [[s4 t2] [e|]]; cbn;
    do 2 eexists; (split; [trace_eq|repeat split; reflexivity]).
Qed.

(** Every error a run returns has one of the origins of [Surfaced]. *)
Lemma rawConfig_error_origin (ctx : CliContext) (w : World) (e : error) :
  snd (call (rawConfig ctx) w) = Returned (Some e) -> Surfaced ctx e.
Proof.
  go_unfold.
  destruct (Metadata ctx !! "--image-path") as [[imagePath| |]|]; cbn; try discriminate.
  destruct (Metadata ctx !! "--image-tag") as [[fromName| |]|]; cbn; try discriminate.
  destruct (Metadata ctx !! "config") as [[configPath| |]|]; cbn; try discriminate.
  destruct (ParseIdmapOptions (set_Version zeroMeta MetaVersion) ctx) as [meta [e0|]] eqn:HP; cbn.
  { intros [= <-]. eapply FromParse; eauto. }
  destruct (dir_Open imagePath (cas w)) as [s1 [engine|e0]] eqn:HO; cbn.
  2:{ intros [= <-]. eapply FromOpen; eauto. }
  destruct (ResolveReference (NewEngine engine) fromName s1) as [s2 [paths|e0]] eqn:HR; cbn.
  2:{ intros [= <-]. eapply FromResolve; eauto. }
  destruct paths as [|p [|q l]]; cbn.
  { intros [= <-]. eapply FromNotFound; eauto. }
  2:{ intros [= <-]. eapply FromAmbiguous; eauto. cbn; lia. }
  destruct (FromDescriptor (NewEngine engine) (PathDescriptor p) s2) as [s3 [blob|e0]] eqn:HF; cbn.
  2:{ intros [= <-]. eapply FromFetch; eauto. }
  destruct (String.eqb_spec (MediaType (BlobDescriptor blob)) MediaTypeImageManifest)
    as [Hmt|Hmt]; cbn.
  2:{ intros [= <-]. eapply FromMediaType; eauto. }
  destruct (assert_Manifest (Data blob)) as [manifest|] eqn:HA; cbn.
  2:{ intros [= <-]. eapply FromInternal; eauto. }
  destruct (os_Create configPath (fs w)) as [t1 [file|e0]] eqn:HC; cbn.
  2:{ intros [= <-]. eapply FromCreate; eauto. }
  destruct (UnpackRuntimeJSON (NewEngine engine) file (ctx_String ctx "rootfs")
              manifest (MetaMapOptions meta) (s3, t1)) as [[s4 t2] [e0|]] eqn:HU; cbn.
  2:{ discriminate. }
  intros [= <-]. eapply FromUnpack; eauto.
Qed.



End PipelineFacts.

(** * The pipeline over the collaborators of the specification *)

Section SpecFacts.
Context `{K : Spec.Codec}.
#[local] Existing Instance Spec.collaborators.

Lemma Spec_Open_reads (path : string) (st : gmap string Spec.ImageLayout) :
  fst (Spec.Open path st) = st.
Proof. unfold Spec.Open. by destruct (st !! path). Qed.

Lemma Spec_ResolveReference_reads (engine name : string)
    (st : gmap string Spec.ImageLayout) :
  fst (Spec.ResolveReference engine name st) = st.
Proof. unfold Spec.ResolveReference. by destruct (st !! engine). Qed.

Lemma Spec_FromDescriptor_reads (engine : string) (d : Descriptor)
    (st : gmap string Spec.ImageLayout) :
  fst (Spec.FromDescriptor engine d st) = st.
Proof.
  unfold Spec.FromDescriptor.
  destruct (st !! engine) as [img|]; [|done].
  destruct (Spec.blobs img !! Digest d) as [raw|]; [|done].
  by destruct (Spec.decode d raw).
Qed.



(** What [FromDescriptor] hands back: the descriptor it was asked with, and
    under the manifest media type a manifest. *)
Lemma Spec_FromDescriptor_typed (engine : string) (d : Descriptor)
    (st st' : gmap string Spec.ImageLayout) (blob : Blob) :
  Spec.FromDescriptor engine d st = (st', Ok blob) ->
  BlobDescriptor blob = d
  /\ (MediaType d = MediaTypeImageManifest -> exists m, Data blob = DataManifest m).
Proof.
  unfold Spec.FromDescriptor.
  destruct (st !! engine) as [img|]; [|discriminate].
  destruct (Spec.blobs img !! Digest d) as [raw|]; [|discriminate].
  destruct (Spec.decode d raw) as [data|e] eqn:HD; [|discriminate].
  intros [= <- <-]. cbn. split; [reflexivity|].
  intros Hmt. unfold Spec.decode in HD. rewrite Hmt in HD. cbn in HD.
  destruct (Spec.decodeManifest raw) as [m|]; [|discriminate].
  injection HD as <-. eauto.
Qed.

(** C10: over the collaborators of the specification, a blob that
    [FromDescriptor] returns under the manifest media type carries a
    manifest, so the type assertion after the media-type check succeeds
    and no run returns the error
    [[internal error] unknown manifest blob type]. *)
Theorem internal_error_is_unreachable :
  (forall (engine : string) (d : Descriptor)
          (st st' : gmap string Spec.ImageLayout) (blob : Blob),
      Spec.FromDescriptor engine d st = (st', Ok blob) ->
      MediaType (BlobDescriptor blob) = MediaTypeImageManifest ->
      exists m, assert_Manifest (Data blob) = Some m)
  /\ (forall (ctx : CliContext) (w : World) (mt : string),
        snd (call (rawConfig ctx) w)
          <> Returned (Some (Errorf ("[internal error] unknown manifest blob type: "
                                     +:+ mt)))).
Proof.
  assert (Htyped : forall engine d st st' blob,
      Spec.FromDescriptor engine d st = (st', Ok blob) ->
      MediaType (BlobDescriptor blob) = MediaTypeImageManifest ->
      exists m, assert_Manifest (Data blob) = Some m).
  { intros engine d st st' blob HF Hmt.
    destruct (Spec_FromDescriptor_typed _ _ _ _ _ HF) as [Hd Hm].
    rewrite Hd in Hmt. destruct (Hm Hmt) as [m ->]. cbn. eauto. }
  split; [exact Htyped|].
  intros ctx w mt He.
  apply rawConfig_error_origin in He.
  destruct He as [meta HP| | | | | | | | |engine d s s' blob HF Hmt HA _];
    try (subst; cbn in *; discriminate).
  - cbn in HP. unfold Spec.ParseIdmapOptions in HP.
    destruct (Spec.directives ctx) as [uids gids].
    destruct (Spec.validMappings uids && Spec.validMappings gids); discriminate.
  - cbn in HF. destruct (Htyped _ _ _ _ _ HF Hmt) as [m Hm]. congruence.
Qed.


(** The synthesis looks at the filesystem through its unpacked trees
    only. *)
Lemma Spec_synthesize_trees (engine : string) (m : Manifest) (o : MapOptions)
    (path : option string) (st : gmap string Spec.ImageLayout)
    (t t' : Spec.Filesystem) :
  Spec.trees t = Spec.trees t' ->
  Spec.synthesize engine m o path st t = Spec.synthesize engine m o path st t'.
Proof.
  intros Ht. unfold Spec.synthesize, Spec.secondaryFs. by rewrite Ht.
Qed.

(** What a write leaves at the sink: the old bytes and a prefix of the new
    ones, all of them when it reports no error. *)
Lemma Spec_write_contents (bytes : list Byte.byte) (f : string) (t : Spec.Filesystem) :
  exists n : nat,
    Spec.contents (fst (Spec.write bytes f t)) !! f
      = Some (default [] (Spec.contents t !! f) ++ take n bytes)
    /\ (snd (Spec.write bytes f t) = None -> take n bytes = bytes)
    /\ Spec.trees (fst (Spec.write bytes f t)) = Spec.trees t.
Proof.
  unfold Spec.write. case_decide; cbn.
  - exists (length bytes). rewrite lookup_insert_eq, firstn_all. auto.
  - exists (Spec.space t). rewrite lookup_insert_eq. repeat split; auto. discriminate.
Qed.

(** C4: over the collaborators of the specification, what a run leaves at
    the destination is a prefix of the serialization of a document whose
    synthesis had finished, and the whole of it when the run reports
    success.  When the synthesis fails, the run returns that error wrapped
    as [generate config] and not one byte is written: the destination,
    created before the synthesis began, is left empty. *)
Theorem document_is_built_before_it_is_written
    (ctx : CliContext) (w : World) (imagePath fromName configPath engine : string)
    (p : DescriptorPath) (blob : Blob) :
  Metadata ctx !! "--image-path" = Some (VString imagePath) ->
  Metadata ctx !! "--image-tag" = Some (VString fromName) ->
  Metadata ctx !! "config" = Some (VString configPath) ->
  snd (ParseIdmapOptions (set_Version zeroMeta MetaVersion) ctx) = None ->
  snd (Spec.Open imagePath (cas w)) = Ok engine ->
  snd (Spec.ResolveReference engine fromName (cas w)) = Ok [p] ->
  snd (Spec.FromDescriptor engine (PathDescriptor p) (cas w)) = Ok blob ->
  MediaType (BlobDescriptor blob) = MediaTypeImageManifest ->
  configPath ∉ Spec.unwritable (fs w) ->
  exists manifest : Manifest,
    Data blob = DataManifest manifest
    /\ match snd (Spec.synthesize engine manifest
                    (MetaMapOptions
                       (fst (ParseIdmapOptions (set_Version zeroMeta MetaVersion) ctx)))
                    (if String.eqb (ctx_String ctx "rootfs") "" then None
                     else Some (ctx_String ctx "rootfs"))
                    (cas w) (fs w)) with
       | Err e =>
         snd (call (rawConfig ctx) w) = Returned (Some (Wrap e "generate config"))
         /\ Spec.contents (fs (fst (call (rawConfig ctx) w))) !! configPath = Some []
       | Ok doc =>
         (exists n : nat,
            Spec.contents (fs (fst (call (rawConfig ctx) w))) !! configPath
              = Some (take n (Spec.serialize doc)))
         /\ (snd (call (rawConfig ctx) w) = Returned None ->
              Spec.contents (fs (fst (call (rawConfig ctx) w))) !! configPath
                = Some (Spec.serialize doc))
       end.
Proof.
  intros H1 H2 H3 HP HO HR HF Hmt Hw.
  destruct (Spec.FromDescriptor engine (PathDescriptor p) (cas w)) as [s3 [blob'|?]] eqn:HF';
    cbn in HF; [|discriminate]. injection HF as ->.
  pose proof (Spec_FromDescriptor_reads engine (PathDescriptor p) (cas w)) as Hs3.
  rewrite HF' in Hs3; cbn in Hs3; subst s3.
  destruct (Spec_FromDescriptor_typed _ _ _ _ _ HF') as [Hd Hm].
  rewrite Hd in Hmt. destruct (Hm Hmt) as [manifest Hdata].
  exists manifest. split; [exact Hdata|].
  pose proof (Spec_Open_reads imagePath (cas w)) as Hs1.
  destruct (Spec.Open imagePath (cas w)) as [s1 r1] eqn:HO'; cbn in HO, Hs1; subst.
  pose proof (Spec_ResolveReference_reads engine fromName (cas w)) as Hs2.
  destruct (Spec.ResolveReference engine fromName (cas w)) as [s2 r2] eqn:HR';
    cbn in HR, Hs2; subst.
  destruct (ParseIdmapOptions (set_Version zeroMeta MetaVersion) ctx) as [meta err] eqn:HP';
    cbn in HP; subst err. cbn [fst].
  set (path := if String.eqb (ctx_String ctx "rootfs") "" then None
               else Some (ctx_String ctx "rootfs")).
  assert (Hrun : call (rawConfig ctx) w
    = let '(s4, t2, err) :=
        Spec.UnpackRuntimeJSON engine configPath (ctx_String ctx "rootfs") manifest
          (MetaMapOptions meta)
          (cas w, Spec.set_contents (fs w) (<[configPath := []]> (Spec.contents (fs w)))
                    (Spec.space (fs w))) in
      ({| cas := s4; fs := t2;
          trace := trace w ++ [EvParseIdmapOptions; EvOpen imagePath;
                               EvResolveReference fromName;
                               EvFromDescriptor (PathDescriptor p);
                               EvCreate configPath; EvLog "generating config.json";
                               EvUnpackRuntimeJSON (ctx_String ctx "rootfs");
                               EvFileClose; EvBlobClose; EvEngineClose] |},
       Returned match err with Some e => Some (Wrap e "generate config") | None => None end)).
  { change (Spec.ParseIdmapOptions (set_Version zeroMeta "2") ctx = (meta, None)) in HP'.
    go_unfold. rewrite H1, H2, H3; cbn. rewrite HP'; cbn. rewrite HO'; cbn.
    unfold NewEngine. rewrite HR'; cbn. rewrite HF'; cbn.
    rewrite Hd, Hmt; cbn. rewrite Hdata; cbn.
    unfold Spec.Create. case_decide; [contradiction|]. cbn.
    destruct (Spec.UnpackRuntimeJSON _ _ _ _ _ _) as [[s4 t2] [e|]]; cbn;
      rewrite <- !app_assoc; reflexivity. }
  rewrite Hrun. clear Hrun.
  unfold Spec.UnpackRuntimeJSON. cbn [fst snd]. fold path.
  assert (Hsyn :
    Spec.synthesize engine manifest (MetaMapOptions meta) path (cas w)
      (Spec.set_contents (fs w) (<[configPath := []]> (Spec.contents (fs w)))
         (Spec.space (fs w)))
    = Spec.synthesize engine manifest (MetaMapOptions meta) path (cas w) (fs w))
    by (by apply Spec_synthesize_trees).
  rewrite Hsyn. clear Hsyn.
  destruct (Spec.synthesize engine manifest (MetaMapOptions meta) path (cas w) (fs w))
    as [st1 [doc|e]]; cbn [snd].
  - destruct (Spec_write_contents (Spec.serialize doc) configPath
               (Spec.set_contents (fs w) (<[configPath := []]> (Spec.contents (fs w)))
                  (Spec.space (fs w)))) as (n & Hn & Hfull & _).
    destruct (Spec.write _ _ _) as [t2 err]; cbn in *.
    rewrite lookup_insert_eq in Hn. cbn in Hn.
    split; [eauto|].
    intros Hret. destruct err; [discriminate|]. rewrite Hn, Hfull; auto.
  - cbn. split; [reflexivity|]. apply lookup_insert_eq.
Qed.

End SpecFacts.

(** * The pipeline run on the fixture *)

Section Runs.
Import Fixture.
#[local] Existing Instance Spec.collaborators.

Example Before_without_argument :
  snd (rawConfigCommand_Before (invocation "latest" [] ∅))
    = Some (Errorf "invalid number of positional arguments: expected <config.json>").
Proof. reflexivity. Qed.

Example Before_with_two_arguments :
  snd (rawConfigCommand_Before (invocation "latest" ["a.json"; "b.json"] ∅))
    = Some (Errorf "invalid number of positional arguments: expected <config.json>").
Proof. reflexivity. Qed.

Example Before_with_empty_argument :
  snd (rawConfigCommand_Before (invocation "latest" [""] ∅))
    = Some (Errorf "config.json path cannot be empty").
Proof. reflexivity. Qed.

Example Before_with_one_argument :
  snd (rawConfigCommand_Before (invocation "latest" ["config.json"] ∅)) = None
  /\ Metadata (fst (rawConfigCommand_Before (invocation "latest" ["config.json"] ∅)))
       !! "config" = Some (VString "config.json").
Proof. split; vm_compute; reflexivity. Qed.

Example rejected_invocation_leaves_the_world :
  Command_Run rawConfigCommand_literal (invocation "latest" [] ∅) world
    = (world,
       Returned (Some (Errorf
         "invalid number of positional arguments: expected <config.json>"))).
Proof. reflexivity. Qed.

Example run_on_latest :
  snd (call (rawConfig (accepted "latest" "/bundle/config.json" ∅)) world)
    = Returned None
  /\ Spec.contents
       (fs (fst (call (rawConfig (accepted "latest" "/bundle/config.json" ∅)) world)))
       !! "/bundle/config.json" = Some [Byte.x03; Byte.x04]
  /\ trace (fst (call (rawConfig (accepted "latest" "/bundle/config.json" ∅)) world))
       = [EvParseIdmapOptions; EvOpen "/image"; EvResolveReference "latest";
          EvFromDescriptor manifestDesc; EvCreate "/bundle/config.json";
          EvLog "generating config.json"; EvUnpackRuntimeJSON "";
          EvFileClose; EvBlobClose; EvEngineClose].
Proof. repeat split; vm_compute; reflexivity. Qed.

Example run_with_secondary_filesystem :
  Spec.contents
    (fs (fst (call (rawConfig (accepted "latest" "/bundle/config.json"
                                 {[ "rootfs" := "/bundle/rootfs" ]})) world)))
    !! "/bundle/config.json" = Some [Byte.x05; Byte.x04].
Proof. vm_compute; reflexivity. Qed.

Example run_into_unwritable_destination :
  snd (call (rawConfig (accepted "latest" "/proc/config.json" ∅)) world)
    = Returned (Some (Wrap (Opaque "open /proc/config.json: permission denied")
                           "opening config path")).
Proof. vm_compute; reflexivity. Qed.

Lemma ambiguous_reference_is_rejected_witness :
  snd (call (rawConfig (accepted "v1" "/bundle/config.json" ∅)) world)
    = Returned (Some (Errorf "tag is ambiguous: v1"))
  /\ trace (fst (call (rawConfig (accepted "v1" "/bundle/config.json" ∅)) world))
       = [EvParseIdmapOptions; EvOpen "/image"; EvResolveReference "v1"; EvEngineClose]
  /\ fs (fst (call (rawConfig (accepted "v1" "/bundle/config.json" ∅)) world))
       = filesystem.
Proof.
  apply (ambiguous_reference_is_rejected
           (accepted "v1" "/bundle/config.json" ∅) world
           "/image" "v1" "/bundle/config.json"
           (set_Version zeroMeta "2") "/image" store store
           [ {| Walk := [indexDesc; manifestDesc] |};
             {| Walk := [indexDesc; otherManifestDesc] |} ]);
    vm_compute; reflexivity.
Defined.

Lemma missing_reference_is_rejected_witness :
  snd (call (rawConfig (accepted "nightly" "/bundle/config.json" ∅)) world)
    = Returned (Some (Errorf "tag not found: nightly"))
  /\ Error (Errorf "tag not found: nightly") = "tag not found: nightly"
  /\ trace (fst (call (rawConfig (accepted "nightly" "/bundle/config.json" ∅)) world))
       = [EvParseIdmapOptions; EvOpen "/image"; EvResolveReference "nightly";
          EvEngineClose]
  /\ (forall d, EvFromDescriptor d ∉
         [EvParseIdmapOptions; EvOpen "/image"; EvResolveReference "nightly";
          EvEngineClose]).
Proof.
  apply (missing_reference_is_rejected
           (accepted "nightly" "/bundle/config.json" ∅) world
           "/image" "nightly" "/bundle/config.json"
           (set_Version zeroMeta "2") "/image" store store);
    vm_compute; reflexivity.
Defined.

Lemma unsupported_media_type_is_rejected_witness :
  exists e,
    snd (call (rawConfig (accepted "list" "/bundle/config.json" ∅)) world)
      = Returned (Some e)
    /\ e = Wrap (FmtErrorf
               ("descriptor does not point to ispec.MediaTypeImageManifest: not implemented: "
                +:+ MediaTypeImageIndex))
             "invalid --image tag"
    /\ Error e
        = "invalid --image tag: descriptor does not point to ispec.MediaTypeImageManifest: not implemented: "
          +:+ MediaTypeImageIndex
    /\ trace (fst (call (rawConfig (accepted "list" "/bundle/config.json" ∅)) world))
         = [EvParseIdmapOptions; EvOpen "/image"; EvResolveReference "list";
            EvFromDescriptor indexDesc; EvBlobClose; EvEngineClose]
    /\ fs (fst (call (rawConfig (accepted "list" "/bundle/config.json" ∅)) world))
         = filesystem.
Proof.
  apply (unsupported_media_type_is_rejected
           (accepted "list" "/bundle/config.json" ∅) world
           "/image" "list" "/bundle/config.json"
           (set_Version zeroMeta "2") "/image" store store store
           {| Walk := [indexDesc] |}
           {| BlobDescriptor := indexDesc; Data := DataIndex [manifestDesc] |});
    try (vm_compute; reflexivity).
  vm_compute. discriminate.
Defined.

Lemma store_handle_is_released_witness :
  exists (evs : list Event) (s : gmap string Spec.ImageLayout),
    trace (fst (call (rawConfig (accepted "latest" "/bundle/config.json" ∅)) world))
      = trace world ++ evs
    /\ last evs = Some EvEngineClose
    /\ count_occ Event_eq_dec evs EvEngineClose = 1%nat
    /\ cas (fst (call (rawConfig (accepted "latest" "/bundle/config.json" ∅)) world))
         = fst (Spec.Engine_Close "/image" s).
Proof.
  apply (store_handle_is_released
           (accepted "latest" "/bundle/config.json" ∅) world
           "/image" "latest" "/bundle/config.json"
           (set_Version zeroMeta "2") "/image" store);
    vm_compute; reflexivity.
Defined.

Lemma document_is_built_before_it_is_written_witness :
  snd (call (rawConfig (accepted "latest" "/bundle/config.json"
                          {[ "rootfs" := "/nowhere" ]})) world)
    = Returned (Some (Wrap Spec.SecondaryFsUnavailable "generate config"))
  /\ Spec.contents
       (fs (fst (call (rawConfig (accepted "latest" "/bundle/config.json"
                                    {[ "rootfs" := "/nowhere" ]})) world)))
       !! "/bundle/config.json" = Some [].
Proof.
  destruct (document_is_built_before_it_is_written
              (accepted "latest" "/bundle/config.json" {[ "rootfs" := "/nowhere" ]}) world
              "/image" "latest" "/bundle/config.json" "/image"
              {| Walk := [indexDesc; manifestDesc] |}
              {| BlobDescriptor := manifestDesc;
                 Data := DataManifest
                   {| Config := configDesc; Layers := [layerDesc 10; layerDesc 20] |} |})
    as (manifest & Hdata & H);
    try (vm_compute; reflexivity).
  - vm_compute. set_solver.
  - injection Hdata as <-. exact H.
Defined.

End Runs.

(** * Every way out of rawConfig *)

Section ExitFacts.
Context `{C : Collaborators}.

(** Whether the three metadata entries are strings can be told. *)
Lemma Keys_or_not (ctx : CliContext) :
  (exists imagePath fromName configPath, Keys ctx imagePath fromName configPath)
  \/ ~ (exists imagePath fromName configPath, Keys ctx imagePath fromName configPath).
Proof.
  unfold Keys.
  destruct (Metadata ctx !! "--image-path") as [[a| |]|];
    try (right; intros (? & ? & ? & ? & _); discriminate).
  destruct (Metadata ctx !! "--image-tag") as [[b| |]|];
    try (right; intros (? & ? & ? & _ & ? & _); discriminate).
  destruct (Metadata ctx !! "config") as [[c| |]|];
    try (right; intros (? & ? & ? & _ & _ & ?); discriminate).
  left. eauto 6.
Qed.

(** Without the three strings the first type assertions panic, before any
    call is made. *)
Lemma rawConfig_panics (ctx : CliContext) (w : World) :
  ~ (exists imagePath fromName configPath, Keys ctx imagePath fromName configPath) ->
  call (rawConfig ctx) w
    = (w, Panicked "interface conversion: interface {} is not string").
Proof.
  intros HK. go_unfold. unfold Keys in HK.
  destruct w as [s t tr].
  destruct (Metadata ctx !! "--image-path") as [[a| |]|]; cbn; try reflexivity.
  destruct (Metadata ctx !! "--image-tag") as [[b| |]|]; cbn; try reflexivity.
  destruct (Metadata ctx !! "config") as [[c| |]|]; cbn; try reflexivity.
  exfalso. apply HK. eauto 6.
Qed.

(** With them, a run ends at one of the return statements. *)
Lemma rawConfig_exits (ctx : CliContext) (w : World)
    (imagePath fromName configPath : string) :
  Keys ctx imagePath fromName configPath ->
  Exit ctx w imagePath fromName configPath
    (fst (call (rawConfig ctx) w)) (snd (call (rawConfig ctx) w)).
Proof.
  intros (H1 & H2 & H3).
  go_unfold. rewrite H1, H2, H3; cbn.
  destruct (ParseIdmapOptions (set_Version zeroMeta MetaVersion) ctx)
    as [meta [e0|]] eqn:HP; cbn.
  { eapply AtParse; eauto. }
  destruct (dir_Open imagePath (cas w)) as [s1 [engine|e0]] eqn:HO; cbn.
  2:{ rewrite <- !app_assoc. eapply AtOpen; eauto. }
  assert (HOp : Opened ctx w imagePath meta s1 engine) by (split; assumption).
  destruct (ResolveReference (NewEngine engine) fromName s1) as [s2 [paths|e0]] eqn:HR; cbn.
  2:{ rewrite <- !app_assoc. eapply AtResolve; eauto. }
  destruct paths as [|p [|q l]]; cbn.
  { rewrite <- !app_assoc. eapply AtNotFound; eauto. }
  2:{ rewrite <- !app_assoc. eapply AtAmbiguous; eauto. cbn; lia. }
  assert (HRe : Resolved ctx w imagePath fromName meta s1 engine s2 p)
    by (split; assumption).
  destruct (FromDescriptor (NewEngine engine) (PathDescriptor p) s2)
    as [s3 [blob|e0]] eqn:HF; cbn.
  2:{ rewrite <- !app_assoc. eapply AtFetch; eauto. }
  assert (HFe : Fetched ctx w imagePath fromName meta s1 engine s2 p s3 blob)
    by (split; assumption).
  destruct (String.eqb_spec (MediaType (BlobDescriptor blob)) MediaTypeImageManifest)
    as [Hmt|Hmt]; cbn.
  2:{ rewrite <- !app_assoc. eapply AtMediaType; eauto. }
  destruct (assert_Manifest (Data blob)) as [manifest|] eqn:HA; cbn.
  2:{ rewrite <- !app_assoc. eapply AtInternal; eauto. }
  assert (HTy : Typed ctx w imagePath fromName meta s1 engine s2 p s3 blob manifest)
    by (repeat split; assumption).
  destruct (os_Create configPath (fs w)) as [t1 [file|e0]] eqn:HC; cbn.
  2:{ rewrite <- !app_assoc. eapply AtCreate; eauto. }
  destruct (UnpackRuntimeJSON (NewEngine engine) file (ctx_String ctx "rootfs")
              manifest (MetaMapOptions meta) (s3, t1)) as [[s4 t2] err] eqn:HU; cbn.
  destruct err as [e0|]; cbn; rewrite <- !app_assoc.
  - eapply (AtUnpack ctx w imagePath fromName configPath) with (err := Some e0); eauto.
  - eapply (AtUnpack ctx w imagePath fromName configPath) with (err := None); eauto.
Qed.

(** X1: [rawConfig] panics exactly when one of the metadata entries
    [--image-path], [--image-tag] and [config] is missing or is not a
    string; in particular the index into the resolved paths never does.
    A run that panics has made no call: it leaves the world as it found
    it. *)
Theorem rawConfig_panics_exactly_without_strings (ctx : CliContext) (w : World) :
  ((exists msg, snd (call (rawConfig ctx) w) = Panicked msg)
   <-> ~ (exists imagePath fromName configPath,
            Keys ctx imagePath fromName configPath))
  /\ (forall msg, snd (call (rawConfig ctx) w) = Panicked msg ->
        fst (call (rawConfig ctx) w) = w).
Proof.
  destruct (Keys_or_not ctx) as [(a & b & c & HK)|HK].
  - pose proof (rawConfig_exits ctx w a b c HK) as HE.
    destruct (call (rawConfig ctx) w) as [w' out]; cbn in *.
    assert (Hret : forall msg, out <> Panicked msg) by (destruct HE; discriminate).
    split; [split|].
    + intros [msg Hmsg]. by apply Hret in Hmsg.
    + intros HN. exfalso. apply HN. eauto.
    + intros msg Hmsg. by apply Hret in Hmsg.
  - rewrite (rawConfig_panics ctx w HK); cbn.
    split; [split|]; eauto.
Qed.

(** What [Before] leaves in the metadata, seen from [rawConfig]. *)
Lemma Keys_after_Before (ctx : CliContext) (path : string) :
  Args ctx = [path] -> path <> "" ->
  rawConfigCommand_Before ctx = (set_Metadata ctx "config" (VString path), None)
  /\ forall imagePath fromName configPath,
       Keys (set_Metadata ctx "config" (VString path)) imagePath fromName configPath
       <-> Metadata ctx !! "--image-path" = Some (VString imagePath)
           /\ Metadata ctx !! "--image-tag" = Some (VString fromName)
           /\ configPath = path.
Proof.
  intros HA Hne. split.
  - unfold rawConfigCommand_Before, NArg. rewrite HA; cbn.
    by destruct (String.eqb_spec path "").
  - intros a b c. unfold Keys, set_Metadata; cbn.
    rewrite !lookup_insert_ne by discriminate. rewrite lookup_insert_eq.
    split.
    + intros (? & ? & [= ->]); auto.
    + intros (? & ? & ->); auto.
Qed.

(** X2: run through the command, [rawConfig] can only panic over the image
    entries.  The command panics exactly when [Before] accepted the
    invocation and [--image-path] or [--image-tag] is missing from the
    metadata or is not a string: the [config] entry that [Before] stores
    always passes its assertion, and a rejected invocation returns an
    error. *)
Theorem command_panics_only_over_image_entries (ctx : CliContext) (w : World) :
  (exists msg, snd (Command_Run rawConfigCommand_literal ctx w) = Panicked msg)
  <-> WellFormedInvocation ctx
      /\ ~ (exists imagePath fromName,
             Metadata ctx !! "--image-path" = Some (VString imagePath)
             /\ Metadata ctx !! "--image-tag" = Some (VString fromName)).
Proof.
  unfold Command_Run; cbn [Before Action rawConfigCommand_literal].
  destruct (rawConfigCommand_Before ctx) as [ctx' [e|]] eqn:HB.
  - cbn. split.
    + intros [msg Hmsg]. discriminate.
    + intros [HW _]. apply Before_decides in HW. rewrite HB in HW. discriminate.
  - assert (HW : WellFormedInvocation ctx)
      by (apply Before_decides; by rewrite HB).
    destruct HW as (path & HA & Hne).
    destruct (Keys_after_Before ctx path HA Hne) as [HB' HK].
    rewrite HB in HB'. injection HB' as ->.
    split.
    + intros [msg Hmsg]. split; [exists path; auto|].
      intros (a & b & Ha & Hb).
      pose proof (rawConfig_exits _ w a b path (proj2 (HK a b path) (conj Ha (conj Hb eq_refl))))
        as HE.
      rewrite Hmsg in HE. inversion HE.
    + intros [_ HN]. eexists.
      rewrite rawConfig_panics; [reflexivity|].
      intros (a & b & c & Habc). apply HK in Habc as (Ha & Hb & _). apply HN; eauto.
Qed.

(** The events of a run, once they are all known. *)
Ltac events_eq := rewrite <- ?app_assoc; cbn; reflexivity.

(** Deciding membership in a list of events that are all known. *)
Ltac in_events H :=
  repeat (apply elem_of_cons in H as [H|H]; [try discriminate|]);
  try (by apply elem_of_nil in H).

(** X3: the calls of a run follow one fixed order, and the closes come
    after them.  Taken without the closes, the events of a run are a prefix
    of: mapping parse, open, reference query, blob fetch, file creation,
    log line, [UnpackRuntimeJSON]; so no step is made unless every earlier
    one was, each is made once, with the image path, the tag, the config
    path and the [rootfs] flag of the context.  The closes follow every
    call, last acquired first: they are a suffix of file, blob, engine. *)
Theorem calls_follow_the_protocol
    (ctx : CliContext) (w : World) (imagePath fromName configPath : string) :
  Keys ctx imagePath fromName configPath ->
  exists (evs : list Event) (d : Descriptor),
    trace (fst (call (rawConfig ctx) w)) = trace w ++ evs
    /\ evs = List.filter (fun ev => negb (is_close ev)) evs ++ List.filter is_close evs
    /\ List.filter (fun ev => negb (is_close ev)) evs
         `prefix_of` protocol imagePath fromName d configPath (ctx_String ctx "rootfs")
    /\ List.filter is_close evs `suffix_of` [EvFileClose; EvBlobClose; EvEngineClose].
Proof.
  intros HK. pose proof (rawConfig_exits ctx w _ _ _ HK) as HE.
  destruct (call (rawConfig ctx) w) as [w' out]; cbn in *.
  destruct HE;
    match goal with
    | p : DescriptorPath |- _ => eexists _, (PathDescriptor p)
    | _ => eexists _, zeroDescriptor
    end;
    (split; [reflexivity|]); (split; [reflexivity|]); cbn;
    (split; [eexists; reflexivity|]);
    first [ by exists [EvFileClose; EvBlobClose; EvEngineClose]
          | by exists [EvFileClose; EvBlobClose]
          | by exists [EvFileClose]
          | by exists [] ].
Qed.

(** X7: a run closes only what it acquired.  The engine is closed only if
    [dir.Open] returned one for the image path, the blob only if
    [FromDescriptor] returned one, the file only if [os.Create] returned
    one for the config path; after a failed acquisition there is nothing
    to close and no close is called. *)
Theorem closes_only_what_was_acquired (ctx : CliContext) (w : World) :
  exists evs : list Event,
    trace (fst (call (rawConfig ctx) w)) = trace w ++ evs
    /\ (EvEngineClose ∈ evs ->
        exists imagePath s1 engine,
          Metadata ctx !! "--image-path" = Some (VString imagePath)
          /\ dir_Open imagePath (cas w) = (s1, Ok engine))
    /\ (EvBlobClose ∈ evs ->
        exists engine p s2 s3 blob,
          EvFromDescriptor (PathDescriptor p) ∈ evs
          /\ FromDescriptor (NewEngine engine) (PathDescriptor p) s2 = (s3, Ok blob))
    /\ (EvFileClose ∈ evs ->
        exists configPath t1 file,
          Metadata ctx !! "config" = Some (VString configPath)
          /\ os_Create configPath (fs w) = (t1, Ok file)).
Proof.
  destruct (Keys_or_not ctx) as [(a & b & c & HK)|HK].
  2:{ rewrite (rawConfig_panics ctx w HK); cbn. exists [].
      rewrite app_nil_r. repeat split; intros H; by apply elem_of_nil in H. }
  pose proof (rawConfig_exits ctx w _ _ _ HK) as HE.
  destruct HK as (H1 & H2 & H3).
  destruct (call (rawConfig ctx) w) as [w' out]; cbn in *.
  destruct HE; eexists; (split; [reflexivity|]);
    repeat match goal with
    | H : Typed _ _ _ _ _ _ _ _ _ _ _ _ |- _ => destruct H as (H & ? & ?)
    | H : Fetched _ _ _ _ _ _ _ _ _ _ _ |- _ => destruct H as (H & ?)
    | H : Resolved _ _ _ _ _ _ _ _ _ |- _ => destruct H as (H & ?)
    | H : Opened _ _ _ _ _ _ |- _ => destruct H as (H & ?)
    end;
    (split; [intros Hin; first [by eauto | in_events Hin]|]);
    (split; [intros Hin; first [in_events Hin | idtac]|]);
    try (intros Hin; first [by eauto | in_events Hin]).
  all: do 5 eexists; split; [|eassumption]; set_solver.
Qed.

(** X8: run through the command, the only file that is ever created is the
    one the single positional argument names. *)
Theorem destination_is_the_positional_argument (ctx : CliContext) (w : World) :
  exists evs : list Event,
    trace (fst (Command_Run rawConfigCommand_literal ctx w)) = trace w ++ evs
    /\ forall path, EvCreate path ∈ evs -> Args ctx = [path] /\ path <> "".
Proof.
  unfold Command_Run; cbn [Before Action rawConfigCommand_literal].
  destruct (rawConfigCommand_Before ctx) as [ctx' [e|]] eqn:HB.
  { cbn. exists []. rewrite app_nil_r. split; [reflexivity|].
    intros path H. by apply elem_of_nil in H. }
  assert (HW : WellFormedInvocation ctx) by (apply Before_decides; by rewrite HB).
  destruct HW as (arg & HA & Hne).
  destruct (Keys_after_Before ctx arg HA Hne) as [HB' HKeys].
  rewrite HB in HB'. injection HB' as ->.
  destruct (Keys_or_not (set_Metadata ctx "config" (VString arg)))
    as [(a & b & c & HK)|HK].
  2:{ rewrite (rawConfig_panics _ w HK); cbn. exists [].
      rewrite app_nil_r. split; [reflexivity|].
      intros path H. by apply elem_of_nil in H. }
  pose proof (rawConfig_exits _ w _ _ _ HK) as HE.
  apply HKeys in HK as (_ & _ & ->).
  destruct (call (rawConfig _) w) as [w' out]; cbn in *.
  destruct HE; eexists; (split; [reflexivity|]); intros path Hin;
    in_events Hin; injection Hin as <-; auto.
Qed.


(** X11: [Before] is local and idempotent.  It leaves the arguments, the
    flags and every metadata entry but [config] as they were, so what
    earlier hooks stored under [--image-path] and [--image-tag] reaches the
    action; and run on its own result it changes nothing more. *)
Theorem Before_is_local_and_idempotent (ctx : CliContext) :
  Args (fst (rawConfigCommand_Before ctx)) = Args ctx
  /\ Flags (fst (rawConfigCommand_Before ctx)) = Flags ctx
  /\ (forall k, k <> "config" ->
        Metadata (fst (rawConfigCommand_Before ctx)) !! k = Metadata ctx !! k)
  /\ rawConfigCommand_Before (fst (rawConfigCommand_Before ctx))
       = rawConfigCommand_Before ctx.
Proof.
  unfold rawConfigCommand_Before, NArg.
  destruct (Args ctx) as [|a [|b l]] eqn:HA; cbn; rewrite ?HA; cbn;
    try (repeat split; auto; fail).
  destruct (String.eqb_spec a "") as [->|Hne]; cbn; rewrite ?HA; cbn.
  - repeat split; auto.
  - destruct (String.eqb_spec a ""); [contradiction|].
    repeat split; auto.
    + intros k Hk. by rewrite lookup_insert_ne.
    + unfold set_Metadata; cbn. by rewrite insert_insert_eq.
Qed.

(** X4: a blob that [FromDescriptor] returned is closed on every way out:
    whether the media type is refused, the assertion fails, the
    destination cannot be created or [UnpackRuntimeJSON] fails or
    succeeds, the run calls its close once, as the last event but one,
    before the engine is closed. *)
Theorem manifest_blob_is_closed
    (ctx : CliContext) (w : World) (imagePath fromName configPath : string)
    (meta : Meta) (s1 : Store) (engine : Engine) (s2 : Store)
    (p : DescriptorPath) (s3 : Store) (blob : Blob) :
  Keys ctx imagePath fromName configPath ->
  Fetched ctx w imagePath fromName meta s1 engine s2 p s3 blob ->
  exists (evs : list Event) (s : Store),
    trace (fst (call (rawConfig ctx) w)) = trace w ++ evs
    /\ count_occ Event_eq_dec evs EvBlobClose = 1%nat
    /\ drop (length evs - 2) evs = [EvBlobClose; EvEngineClose]
    /\ cas (fst (call (rawConfig ctx) w))
         = fst (Engine_Close engine (fst (Blob_Close blob s))).
Proof.
  intros (H1 & H2 & H3) (((HP & HO) & HR) & HF). unfold Parsed in HP.
  go_unfold. rewrite H1, H2, H3; cbn. rewrite HP; cbn. rewrite HO; cbn.
  rewrite HR; cbn. rewrite HF; cbn.
  destruct (negb (String.eqb (MediaType (BlobDescriptor blob)) MediaTypeImageManifest)); cbn;
    [do 2 eexists; split; [events_eq|repeat split; reflexivity]|].
  destruct (assert_Manifest (Data blob)) as [manifest|]; cbn;
    [|do 2 eexists; split; [events_eq|repeat split; reflexivity]].
  destruct (os_Create configPath (fs w)) as [t1 [file|e]]; cbn;
    [|do 2 eexists; split; [events_eq|repeat split; reflexivity]].
  destruct (UnpackRuntimeJSON (NewEngine engine) file (ctx_String ctx "rootfs")
              manifest (MetaMapOptions meta) (s3, t1)) as [[s4 t2] [e|]]; cbn;
    do 2 eexists; (split; [events_eq|repeat split; reflexivity]).
Qed.

(** X5: a file that [os.Create] returned is closed whether
    [UnpackRuntimeJSON] succeeds or fails: the close is called once, right
    after [UnpackRuntimeJSON] and before the blob and the engine are
    closed, and the filesystem the run leaves is the one that close
    returned. *)
Theorem config_file_is_closed
    (ctx : CliContext) (w : World) (imagePath fromName configPath : string)
    (meta : Meta) (s1 : Store) (engine : Engine) (s2 : Store)
    (p : DescriptorPath) (s3 : Store) (blob : Blob) (manifest : Manifest)
    (t1 : FS) (file : File) :
  Keys ctx imagePath fromName configPath ->
  Typed ctx w imagePath fromName meta s1 engine s2 p s3 blob manifest ->
  os_Create configPath (fs w) = (t1, Ok file) ->
  exists (evs : list Event),
    trace (fst (call (rawConfig ctx) w)) = trace w ++ evs
    /\ count_occ Event_eq_dec evs EvFileClose = 1%nat
    /\ drop (length evs - 4) evs
         = [EvUnpackRuntimeJSON (ctx_String ctx "rootfs");
            EvFileClose; EvBlobClose; EvEngineClose]
    /\ fs (fst (call (rawConfig ctx) w))
         = fst (File_Close file
                  (snd (fst (UnpackRuntimeJSON (NewEngine engine) file
                               (ctx_String ctx "rootfs") manifest
                               (MetaMapOptions meta) (s3, t1))))).
Proof.
  intros (H1 & H2 & H3) ((((HP & HO) & HR) & HF) & Hmt & HA) HC. unfold Parsed in HP.
  go_unfold. rewrite H1, H2, H3; cbn. rewrite HP; cbn. rewrite HO; cbn.
  rewrite HR; cbn. rewrite HF; cbn. rewrite Hmt; cbn. rewrite HA; cbn.
  rewrite HC; cbn.
  destruct (UnpackRuntimeJSON (NewEngine engine) file (ctx_String ctx "rootfs")
              manifest (MetaMapOptions meta) (s3, t1)) as [[s4 t2] [e|]]; cbn;
    eexists; (split; [events_eq|repeat split; reflexivity]).
Qed.

(** X6: when [ParseIdmapOptions] fails the run stops there.  It returns the
    error; the store is not opened and no file is created: the store and
    the filesystem are as they were, and the parse is the run's only
    event. *)
Theorem parse_failure_stops_the_run
    (ctx : CliContext) (w : World) (imagePath fromName configPath : string)
    (meta : Meta) (e : error) :
  Keys ctx imagePath fromName configPath ->
  ParseIdmapOptions (set_Version zeroMeta MetaVersion) ctx = (meta, Some e) ->
  call (rawConfig ctx) w
    = (after w (cas w) (fs w) [EvParseIdmapOptions], Returned (Some e)).
Proof.
  intros (H1 & H2 & H3) HP.
  go_unfold. rewrite H1, H2, H3; cbn. rewrite HP; cbn. reflexivity.
Qed.

(** X10: a nil result means the configuration was generated.  If a run
    returns nil, then every step succeeded in turn, the reference resolved
    to exactly one path, and [UnpackRuntimeJSON] returned nil on the
    engine that was opened and the file that was created, with the
    manifest of the blob at that path, the [rootfs] flag of the context
    and the mapping options [ParseIdmapOptions] left in the envelope. *)
Theorem nil_means_generated (ctx : CliContext) (w : World) :
  snd (call (rawConfig ctx) w) = Returned None ->
  exists imagePath fromName configPath meta s1 engine s2 p s3 blob manifest
         t1 file s4 t2,
    Keys ctx imagePath fromName configPath
    /\ Typed ctx w imagePath fromName meta s1 engine s2 p s3 blob manifest
    /\ os_Create configPath (fs w) = (t1, Ok file)
    /\ UnpackRuntimeJSON (NewEngine engine) file (ctx_String ctx "rootfs") manifest
         (MetaMapOptions meta) (s3, t1) = (s4, t2, None)
    /\ fst (call (rawConfig ctx) w)
       = after w (fst (Engine_Close engine (fst (Blob_Close blob s4))))
           (fst (File_Close file t2))
           (protocol imagePath fromName (PathDescriptor p) configPath
              (ctx_String ctx "rootfs")
            ++ [EvFileClose; EvBlobClose; EvEngineClose]).
Proof.
  intros Hnil.
  destruct (Keys_or_not ctx) as [(a & b & c & HK)|HK].
  2:{ rewrite (rawConfig_panics ctx w HK) in Hnil. discriminate. }
  pose proof (rawConfig_exits ctx w _ _ _ HK) as HE.
  destruct (call (rawConfig ctx) w) as [w' out]; cbn in *. subst out.
  inversion HE as [| | | | | | | |
                   |meta s1 engine s2 p s3 blob manifest t1 file s4 t2 err HT HC HU Hw Hout].
  destruct err; [discriminate|].
  exists a, b, c, meta, s1, engine, s2, p, s3, blob, manifest, t1, file, s4, t2.
  split; [exact HK|]. split; [exact HT|]. split; [exact HC|]. split; [exact HU|].
  reflexivity.
Qed.



End ExitFacts.

(** * More runs on the fixture *)

Section MoreRuns.
Import Fixture.
#[local] Existing Instance Spec.collaborators.

Lemma calls_follow_the_protocol_witness :
  exists (evs : list Event) (d : Descriptor),
    trace (fst (call (rawConfig (accepted "list" "/bundle/config.json" ∅)) world))
      = trace world ++ evs
    /\ evs = List.filter (fun ev => negb (is_close ev)) evs ++ List.filter is_close evs
    /\ List.filter (fun ev => negb (is_close ev)) evs
         `prefix_of` protocol "/image" "list" d "/bundle/config.json"
                       (ctx_String (accepted "list" "/bundle/config.json" ∅) "rootfs")
    /\ List.filter is_close evs `suffix_of` [EvFileClose; EvBlobClose; EvEngineClose].
Proof.
  apply (calls_follow_the_protocol (accepted "list" "/bundle/config.json" ∅) world
           "/image" "list" "/bundle/config.json").
  unfold Keys. repeat split; vm_compute; reflexivity.
Defined.

Lemma manifest_blob_is_closed_witness :
  exists (evs : list Event) (s : gmap string Spec.ImageLayout),
    trace (fst (call (rawConfig (accepted "list" "/bundle/config.json" ∅)) world))
      = trace world ++ evs
    /\ count_occ Event_eq_dec evs EvBlobClose = 1%nat
    /\ drop (length evs - 2) evs = [EvBlobClose; EvEngineClose]
    /\ cas (fst (call (rawConfig (accepted "list" "/bundle/config.json" ∅)) world))
         = fst (Spec.Engine_Close "/image"
                  (fst (Spec.Blob_Close
                          {| BlobDescriptor := indexDesc;
                             Data := DataIndex [manifestDesc] |} s))).
Proof.
  apply (manifest_blob_is_closed (accepted "list" "/bundle/config.json" ∅) world
           "/image" "list" "/bundle/config.json"
           (set_Version zeroMeta "2") store "/image" store
           {| Walk := [indexDesc] |} store
           {| BlobDescriptor := indexDesc; Data := DataIndex [manifestDesc] |}).
  - unfold Keys. repeat split; vm_compute; reflexivity.
  - unfold Fetched, Resolved, Opened, Parsed. repeat split; vm_compute; reflexivity.
Defined.

Lemma config_file_is_closed_witness :
  exists evs : list Event,
    trace (fst (call (rawConfig (accepted "latest" "/bundle/config.json"
                                   {[ "rootfs" := "/nowhere" ]})) world))
      = trace world ++ evs
    /\ count_occ Event_eq_dec evs EvFileClose = 1%nat
    /\ drop (length evs - 4) evs
         = [EvUnpackRuntimeJSON "/nowhere"; EvFileClose; EvBlobClose; EvEngineClose].
Proof.
  destruct (config_file_is_closed
              (accepted "latest" "/bundle/config.json" {[ "rootfs" := "/nowhere" ]}) world
              "/image" "latest" "/bundle/config.json"
              (set_Version zeroMeta "2") store "/image" store
              {| Walk := [indexDesc; manifestDesc] |} store
              {| BlobDescriptor := manifestDesc;
                 Data := DataManifest
                   {| Config := configDesc; Layers := [layerDesc 10; layerDesc 20] |} |}
              {| Config := configDesc; Layers := [layerDesc 10; layerDesc 20] |}
              (fst (Spec.Create "/bundle/config.json" filesystem))
              "/bundle/config.json")
    as (evs & Htr & Hcount & Hlast & _).
  - unfold Keys. repeat split; vm_compute; reflexivity.
  - unfold Typed, Fetched, Resolved, Opened, Parsed.
    repeat split; vm_compute; reflexivity.
  - vm_compute; reflexivity.
  - exists evs. auto.
Defined.

Lemma parse_failure_stops_the_run_witness :
  call (rawConfig (accepted "latest" "/bundle/config.json"
                     {[ "uid-map" := "0:1000:0" ]})) world
    = (after world store filesystem [EvParseIdmapOptions],
       Returned (Some Spec.InvalidMapping)).
Proof.
  apply (parse_failure_stops_the_run
           (accepted "latest" "/bundle/config.json" {[ "uid-map" := "0:1000:0" ]}) world
           "/image" "latest" "/bundle/config.json" (set_Version zeroMeta "2")).
  - unfold Keys. repeat split; vm_compute; reflexivity.
  - vm_compute; reflexivity.
Defined.

Lemma nil_means_generated_witness :
  exists imagePath fromName configPath meta s1 engine s2 p s3 blob manifest
         t1 file s4 t2,
    Keys (accepted "latest" "/bundle/config.json" ∅) imagePath fromName configPath
    /\ Typed (accepted "latest" "/bundle/config.json" ∅) world imagePath fromName
         meta s1 engine s2 p s3 blob manifest
    /\ os_Create configPath (fs world) = (t1, Ok file)
    /\ UnpackRuntimeJSON (NewEngine engine) file
         (ctx_String (accepted "latest" "/bundle/config.json" ∅) "rootfs") manifest
         (MetaMapOptions meta) (s3, t1) = (s4, t2, None)
    /\ fst (call (rawConfig (accepted "latest" "/bundle/config.json" ∅)) world)
       = after world (fst (Engine_Close engine (fst (Blob_Close blob s4))))
           (fst (File_Close file t2))
           (protocol imagePath fromName (PathDescriptor p) configPath
              (ctx_String (accepted "latest" "/bundle/config.json" ∅) "rootfs")
            ++ [EvFileClose; EvBlobClose; EvEngineClose]).
Proof.
  apply (nil_means_generated (accepted "latest" "/bundle/config.json" ∅) world).
  vm_compute; reflexivity.
Defined.

(** The fixture with its image path pointing at no image. *)
Example run_without_image :
  snd (call (rawConfig (set_Metadata (accepted "latest" "/bundle/config.json" ∅)
                          "--image-path" (VString "/missing"))) world)
    = Returned (Some (Wrap (Spec.NotFound "/missing") "open CAS")).
Proof. vm_compute; reflexivity. Qed.



End MoreRuns.
